(** * Water-level pump controller (main.py): shallow embedding and properties

    The controller is one MicroPython script: module-level variables, a
    display routine and an endless polling loop.  The embedding keeps that
    shape:

    - the module-level variables and the output latch of the pump pin are
      the fields of [State];
    - everything one loop iteration reads from the outside (each call of
      [time.time()], the ADC sample) is a field of [TickIn], one field per
      call site, so that two clock readings of one iteration may differ;
    - everything an iteration does to the outside (console lines, pump pin
      commands, OLED calls, sleeps) is an [event], listed in program order;
    - a Python exception ends the iteration with [Raise].

    Numbers: Python floats and timestamps are modelled as exact rationals
    ([Q]); rounding of binary floating point is not modelled.  [pump_cycles]
    is a Python integer ([Z]). *)

From Stdlib Require Import QArith ZArith List String Bool Lia Lqa DecimalString.
From Stdlib Require HexadecimalString.
Import ListNotations.

Open Scope Q_scope.

(** ** Constants (main.py, lines 38-42) *)

Definition PUMP_RATE_LITRES_PER_MIN : Q := 6.4.
Definition MAX_PUMP_DURATION : Q := 10 * 60.
Definition REST_DURATION : Q := 60.
Definition MIN_RUN_TIME : Q := 10.
Definition PAUSE_BETWEEN_RUNS : Q := 10.

(** The literal threshold of line 127. *)
Definition LOW_VOLTAGE : Q := 2.1.

(** Python's [a < b] on numbers. *)
Definition Qlt_bool (a b : Q) : bool := negb (Qle_bool b a).

(** ** Sensor and pin reads (lines 44-52) *)

(** [read_voltage]: the raw 16-bit sample scaled to 0-3.3 V. *)
Definition read_voltage (raw_value : Z) : Q :=
  (inject_Z raw_value / 65535) * 3.3.

(** [read_pump_status]: the pin value rendered as text. *)
Definition read_pump_status (pin_value : bool) : string :=
  if pin_value then "ON"%string else "OFF"%string.

(** ** Number formatting: Python's [f"{x:.Nf}"] *)

Module Fmt.

(** Nearest integer, ties to the even neighbour. *)
Definition round_half_even (q : Q) : Z :=
  let n := Qnum q in
  let d := Zpos (Qden q) in
  let f := (n / d)%Z in
  let r := (n mod d)%Z in
  match (2 * r ?= d)%Z with
  | Lt => f
  | Gt => (f + 1)%Z
  | Eq => if Z.even f then f else (f + 1)%Z
  end.

Definition digit (n : Z) : string :=
  NilZero.string_of_uint (N.to_uint (Z.to_N (n mod 10))).

(** Exactly [k] decimal digits of [n], most significant first. *)
Fixpoint digits (k : nat) (n : Z) : string :=
  match k with
  | O => EmptyString
  | S k' => (digits k' (n / 10) ++ digit n)%string
  end.

Definition pow10 (k : nat) : Z := (10 ^ Z.of_nat k)%Z.

(** [f"{q:.kf}"]: sign, integer part, and [k] digits after the point, for
    the exact rational [q].  The code formats the binary float nearest to
    its quotient, which can fall on the other side of a decimal tie and
    loses digits beyond the float's precision. *)
Definition fixed (k : nat) (q : Q) : string :=
  let m := Z.abs (round_half_even (q * inject_Z (pow10 k))) in
  let sign := if (Qnum q <? 0)%Z then "-"%string else EmptyString in
  let ip := NilZero.string_of_uint (N.to_uint (Z.to_N (m / pow10 k))) in
  match k with
  | O => (sign ++ ip)%string
  | _ => (sign ++ ip ++ "." ++ digits k (m mod pow10 k))%string
  end.

(** [f"{n}"] for an integer. *)
Definition int (n : Z) : string := NilZero.string_of_int (Z.to_int n).

End Fmt.

(** ** Module-level state (lines 33, 54-62, 110) *)

Record State := mkState {
  litres_pumped : Q;
  pump_cycles : Z;
  pump_active_time : Q;
  pump_start_time : option Q;
  rest_start_time : option Q;
  is_resting : bool;
  last_pump_stop_time : option Q;
  start_time : Q;
  (** the global [voltage], unbound until the loop first assigns it *)
  voltage : option Q;
  (** the output latch of [pump_control] (GPIO 15), read by [.value()] *)
  pump_control : bool
}.

(** The state when the loop is entered: line 62 read the clock as [t0] and
    the pump pin's latch holds [pin]. *)
Definition boot (pin : bool) (t0 : Q) : State :=
  {| litres_pumped := 0;
     pump_cycles := 0;
     pump_active_time := 0;
     pump_start_time := None;
     rest_start_time := None;
     is_resting := false;
     last_pump_stop_time := None;
     start_time := t0;
     voltage := None;
     pump_control := pin |}.

(** Startup with the pump output off. *)
Definition init (t0 : Q) : State := boot false t0.

(** ** Environment of one loop iteration *)

Record TickIn := mkTickIn {
  t_loop : Q;   (** [time.time()] of line 98, [current_time] *)
  adc_raw : Z;  (** [adc.read_u16()] of line 46 *)
  t_est : Q;    (** [time.time()] of line 119 *)
  t_on : Q;     (** [time.time()] of line 133 *)
  t_off : Q;    (** [time.time()] of line 142 *)
  t_stop : Q;   (** [time.time()] of line 146 *)
  t_disp : Q    (** [time.time()] of line 75, inside [display_info] *)
}.

Inductive event :=
| Print (s : string)
| PumpOn                       (** [pump_control.on()] *)
| PumpOff                      (** [pump_control.off()] *)
| OledFill (c : Z)
| OledText (s : string) (x y : Z)
| OledShow
| Sleep (d : Q).

(** Exceptions raised by the script's own expressions.  The calls into the
    devices (ADC, pins, display) are taken to succeed: they appear as inputs
    and events, and their failures are not modelled. *)
Inductive exn := TypeError | NameError.

Inductive result (A : Type) :=
| Ok (a : A)
| Raise (e : exn).
Arguments Ok {A} a.
Arguments Raise {A} e.

Definition bind {A B} (m : result A) (k : A -> result B) : result B :=
  match m with
  | Ok a => k a
  | Raise e => Raise e
  end.

Notation "x <- m ;; k" := (bind m (fun x => k))
  (at level 61, m at next level, right associativity).
Notation "' p <- m ;; k" := (bind m (fun x => let 'p := x in k))
  (at level 61, p pattern, m at next level, right associativity).

(** ** format_hours, format_minutes (lines 64-70) *)

Definition format_hours (seconds : Q) : string :=
  let hours := seconds / 3600 in
  Fmt.fixed 3 hours.

Definition format_minutes (seconds : Q) : string :=
  let minutes := seconds / 60 in
  Fmt.fixed 2 minutes.

(** ** display_info (lines 72-95) *)

(** Line 76: [current_time - start_time if start_time else 1]. *)
Definition elapsed_time_of (start now : Q) : Q :=
  if negb (Qeq_bool start 0) then now - start else 1.

(** Line 77: [(active / elapsed) * 100 if elapsed > 0 else 0]. *)
Definition pump_duty_cycle_of (current_active_time elapsed_time : Q) : Q :=
  if Qlt_bool 0 elapsed_time
  then (current_active_time / elapsed_time) * 100
  else 0.

(** The duty cycle [display_info] reports when it reads the clock as [now]. *)
Definition reported_duty (s : State) (now current_active_time : Q) : Q :=
  pump_duty_cycle_of current_active_time (elapsed_time_of (start_time s) now).

Definition display_info (s : State) (now : Q)
    (current_active_time current_litres_pumped : Q) : result (list event) :=
  let current_time := now in
  let elapsed_time := elapsed_time_of (start_time s) current_time in
  let pump_duty_cycle := pump_duty_cycle_of current_active_time elapsed_time in
  let elapsed_time_str := format_hours elapsed_time in
  let pump_on_time_str := format_minutes current_active_time in
  let pump_duty_cycle_str := (Fmt.fixed 2 pump_duty_cycle ++ " %")%string in
  let pump_cycles_str := Fmt.int (pump_cycles s) in
  let volume_pumped_str := (Fmt.fixed 2 current_litres_pumped ++ " L")%string in
  match voltage s with
  | None => Raise NameError
  | Some v =>
    let voltage_str := (Fmt.fixed 2 v ++ " V")%string in
    Ok [ OledFill 0;
         OledText (" Elap: " ++ elapsed_time_str ++ "h") 0 0;
         OledText ("PmpON: " ++ pump_on_time_str ++ " m") 0 11;
         OledText (" Duty: " ++ pump_duty_cycle_str) 0 22;
         OledText ("Cycls: " ++ pump_cycles_str) 0 33;
         OledText ("  Vol: " ++ volume_pumped_str) 0 44;
         OledText ("Volts: " ++ voltage_str) 0 55;
         OledShow ]
  end.

(** ** The loop body (lines 97-151) *)

Definition set_is_resting (b : bool) (s : State) : State :=
  {| litres_pumped := litres_pumped s;
     pump_cycles := pump_cycles s;
     pump_active_time := pump_active_time s;
     pump_start_time := pump_start_time s;
     rest_start_time := rest_start_time s;
     is_resting := b;
     last_pump_stop_time := last_pump_stop_time s;
     start_time := start_time s;
     voltage := voltage s;
     pump_control := pump_control s |}.

Definition set_voltage (v : Q) (s : State) : State :=
  {| litres_pumped := litres_pumped s;
     pump_cycles := pump_cycles s;
     pump_active_time := pump_active_time s;
     pump_start_time := pump_start_time s;
     rest_start_time := rest_start_time s;
     is_resting := is_resting s;
     last_pump_stop_time := last_pump_stop_time s;
     start_time := start_time s;
     voltage := Some v;
     pump_control := pump_control s |}.

(** Lines 132-134: pin on, start time recorded, cycle counted. *)
Definition switch_on (now : Q) (s : State) : State :=
  {| litres_pumped := litres_pumped s;
     pump_cycles := (pump_cycles s + 1)%Z;
     pump_active_time := pump_active_time s;
     pump_start_time := Some now;
     rest_start_time := rest_start_time s;
     is_resting := is_resting s;
     last_pump_stop_time := last_pump_stop_time s;
     start_time := start_time s;
     voltage := voltage s;
     pump_control := true |}.

(** Lines 141-146: pin off, the run of length [pump_duration] committed. *)
Definition switch_off (pump_duration now : Q) (s : State) : State :=
  {| litres_pumped :=
       litres_pumped s + PUMP_RATE_LITRES_PER_MIN * (pump_duration / 60);
     pump_cycles := pump_cycles s;
     pump_active_time := pump_active_time s + pump_duration;
     pump_start_time := None;
     rest_start_time := rest_start_time s;
     is_resting := is_resting s;
     last_pump_stop_time := Some now;
     start_time := start_time s;
     voltage := voltage s;
     pump_control := false |}.

(** Lines 117-124: the real-time figures handed to the display. *)
Definition estimate (s : State) (i : TickIn) : Q * Q :=
  match pump_control s, pump_start_time s with
  | true, Some p =>
    let real_time_pump_duration := t_est i - p in
    (pump_active_time s + real_time_pump_duration,
     litres_pumped s
       + PUMP_RATE_LITRES_PER_MIN * (real_time_pump_duration / 60))
  | _, _ => (pump_active_time s, litres_pumped s)
  end.

(** Line 129: the pause gate. *)
Definition pause_elapsed (s : State) (current_time : Q) : bool :=
  match last_pump_stop_time s with
  | None => true
  | Some l => Qle_bool PAUSE_BETWEEN_RUNS (current_time - l)
  end.

(** Line 139: the minimum-run gate. *)
Definition min_run_elapsed (s : State) (current_time : Q) : bool :=
  match pump_start_time s with
  | None => false
  | Some p => Qle_bool MIN_RUN_TIME (current_time - p)
  end.

(** Lines 126-146: pump control for the sample [v]. *)
Definition control (s : State) (i : TickIn) (v : Q) : State * list event :=
  let current_time := t_loop i in
  if Qlt_bool v LOW_VOLTAGE && negb (is_resting s) then
    if pause_elapsed s current_time then
      if negb (pump_control s) then
        (switch_on (t_on i) s,
         [Print "Turning pump ON"; PumpOn;
          Print "Pump is turned ON due to low voltage."])
      else (s, [Print "Pump is turned ON due to low voltage."])
    else (s, [])
  else
    if pump_control s then
      match pump_start_time s with
      | Some p =>
        if Qle_bool MIN_RUN_TIME (current_time - p) then
          let pump_duration := t_off i - p in
          (switch_off pump_duration (t_stop i) s,
           [Print "Turning pump OFF"; PumpOff])
        else (s, [])
      | None => (s, [])
      end
    else (s, []).

(** Lines 110-151: sample, estimate, control, display, sleep. *)
Definition poll (s : State) (i : TickIn) : result (State * list event) :=
  let v := read_voltage (adc_raw i) in
  let s1 := set_voltage v s in
  let pump_status := read_pump_status (pump_control s1) in
  let diag :=
    [Print ("Voltage at GPIO 26: " ++ Fmt.fixed 2 v ++ " V");
     Print ("Pump Status: " ++ pump_status)] in
  let '(current_active_time, current_litres_pumped) := estimate s1 i in
  let '(s2, ctl) := control s1 i v in
  d <- display_info s2 (t_disp i) current_active_time current_litres_pumped ;;
  Ok (s2, diag ++ ctl ++ d ++ [Sleep 0.1]).

(** One iteration of [while True] (lines 97-151). *)
Definition tick (s : State) (i : TickIn) : result (State * list event) :=
  let current_time := t_loop i in
  if is_resting s then
    match rest_start_time s with
    | None => Raise TypeError
    | Some r =>
      if Qle_bool REST_DURATION (current_time - r) then
        '(s', out) <- poll (set_is_resting false s) i ;;
        Ok (s', Print "Rest period over. Resuming normal operation." :: out)
      else
        d <- display_info s (t_disp i) (pump_active_time s) (litres_pumped s) ;;
        Ok (s, Print "Resting..." :: d ++ [Sleep 1])
    end
  else poll s i.

(** Iterations in sequence, one [TickIn] each: the final state and, per
    iteration, what it read and what it did. *)
Fixpoint trace (s : State) (ins : list TickIn)
    : result (State * list (TickIn * list event)) :=
  match ins with
  | [] => Ok (s, [])
  | i :: rest =>
    '(s1, out) <- tick s i ;;
    '(s2, tr) <- trace s1 rest ;;
    Ok (s2, (i, out) :: tr)
  end.

(** All events of a trace, in order. *)
Definition events (tr : list (TickIn * list event)) : list event :=
  List.concat (map snd tr).

(** States the loop can be in after startup with the pump output off. *)
Inductive reachable : State -> Prop :=
| reach_init t0 : reachable (init t0)
| reach_tick s i s' out :
    reachable s -> tick s i = Ok (s', out) -> reachable s'.

(** ** Observations on event lists *)

Definition is_on (e : event) : bool :=
  match e with PumpOn => true | _ => false end.

Definition is_off (e : event) : bool :=
  match e with PumpOff => true | _ => false end.

(** Number of actuator-ON commands in an event list. *)
Definition count_on (out : list event) : nat := List.length (filter is_on out).

(** The pump commands of an event list, in order. *)
Definition actuations (out : list event) : list event :=
  filter (fun e => is_on e || is_off e) out.

(** Run lengths of the completed (start, stop) cycles of a trace: from the
    clock reading taken at the ON command (line 133) to the one taken at
    the OFF command (line 142).  [started] is the reading of a start still
    waiting for its stop. *)
Fixpoint cycle_durations (started : option Q)
    (tr : list (TickIn * list event)) : list Q :=
  match tr with
  | [] => []
  | (i, out) :: rest =>
    if existsb is_on out then cycle_durations (Some (t_on i)) rest
    else if existsb is_off out then
      match started with
      | Some p => (t_off i - p) :: cycle_durations None rest
      | None => cycle_durations None rest
      end
    else cycle_durations started rest
  end.

(** [sum(RATE * d/60 for d in ds)]. *)
Fixpoint volume_of (ds : list Q) : Q :=
  match ds with
  | [] => 0
  | d :: rest => PUMP_RATE_LITRES_PER_MIN * (d / 60) + volume_of rest
  end.

(** The clock does not run backwards between line 98 and line 142. *)
Definition stop_after_loop (i : TickIn) : Prop := t_loop i <= t_off i.

(** The clock readings of one iteration, in program order. *)
Definition in_order (i : TickIn) : Prop :=
  t_loop i <= t_est i /\ t_est i <= t_on i /\ t_on i <= t_off i /\
  t_off i <= t_stop i /\ t_stop i <= t_disp i.

(** States reached from startup under a clock that never runs backwards,
    with the latest clock reading taken. *)
Inductive reachable_at : State -> Q -> Prop :=
| reach_at_init t0 : reachable_at (init t0) t0
| reach_at_tick s last i s' out :
    reachable_at s last -> last <= t_loop i -> in_order i ->
    tick s i = Ok (s', out) -> reachable_at s' (t_disp i).

(** ** The three outcomes of the control block (lines 126-146) *)

(** Guard of the switch-on lines 127-130. *)
Definition start_cond (s : State) (i : TickIn) (v : Q) : Prop :=
  v < LOW_VOLTAGE /\ is_resting s = false /\
  pause_elapsed s (t_loop i) = true /\ pump_control s = false.

(** Guard of the switch-off lines 136-139, for a run started at [p]. *)
Definition stop_cond (s : State) (i : TickIn) (v : Q) (p : Q) : Prop :=
  (LOW_VOLTAGE <= v \/ is_resting s = true) /\
  pump_control s = true /\ pump_start_time s = Some p /\
  MIN_RUN_TIME <= t_loop i - p.

Inductive control_outcome (s : State) (i : TickIn) (v : Q)
    : State -> list event -> Prop :=
| outcome_start :
    start_cond s i v ->
    control_outcome s i v (switch_on (t_on i) s) [PumpOn]
| outcome_stop p :
    stop_cond s i v p ->
    control_outcome s i v (switch_off (t_off i - p) (t_stop i) s) [PumpOff]
| outcome_stay :
    ~ start_cond s i v -> (forall p, ~ stop_cond s i v p) ->
    control_outcome s i v s [].

(** The state the control block works on: the sample stored and, after the
    rest block, [is_resting] false. *)
Definition polled (v : Q) (s : State) : State :=
  set_voltage v (set_is_resting false s).

(** ** The recorded start time and the pump output *)

(** What startup establishes and every iteration keeps. *)
Definition consistent (s : State) : Prop :=
  is_resting s = false /\
  (pump_start_time s <> None <-> pump_control s = true).

(** ** The rest branch *)

(** What only the rest block (lines 100-108) emits. *)
Definition rest_marker (e : event) : Prop :=
  e = Print "Resting..." \/
  e = Print "Rest period over. Resuming normal operation." \/
  e = Sleep 1.

(** ** Duty cycle along a run *)

(** The committed active time fits into the process lifetime: up to the
    open start when the pump runs, up to the latest clock reading when it
    does not. *)
Definition timed (s : State) (last : Q) : Prop :=
  start_time s <= last /\ 0 <= pump_active_time s /\
  match pump_start_time s with
  | Some p => start_time s <= p /\ p <= last /\
              pump_active_time s <= p - start_time s
  | None => pump_active_time s <= last - start_time s
  end.

(** ** Concrete runs, used to instantiate the properties *)

(** An iteration during which the clock reads [t] throughout and the ADC
    returns [raw]. *)
Definition sample (t : Q) (raw : Z) : TickIn := mkTickIn t raw t t t t t.

(** Raw samples for about 1.51 V and 2.52 V. *)
Definition low_raw : Z := 30000.
Definition high_raw : Z := 50000.

Definition state_of {A : Type} (r : result (State * A)) (d : State) : State :=
  match r with
  | Ok (s, _) => s
  | Raise _ => d
  end.

Definition output_of {A : Type} (r : result (State * list A)) : list A :=
  match r with
  | Ok (_, o) => o
  | Raise _ => []
  end.

(** Startup at clock reading 1, then a low sample at t=80: the pump starts. *)
Definition running_since_80 : State :=
  Eval vm_compute in state_of (tick (init 1) (sample 80 low_raw)) (init 1).
Definition out_start_80 : list event :=
  Eval vm_compute in output_of (tick (init 1) (sample 80 low_raw)).

(** A high sample at t=85: too early to stop. *)
Definition held_at_85 : State :=
  Eval vm_compute in
    state_of (tick running_since_80 (sample 85 high_raw)) (init 1).
Definition out_hold_85 : list event :=
  Eval vm_compute in output_of (tick running_since_80 (sample 85 high_raw)).

(** A high sample at t=100: the pump stops. *)
Definition stopped_at_100 : State :=
  Eval vm_compute in
    state_of (tick running_since_80 (sample 100 high_raw)) (init 1).
Definition out_stop_100 : list event :=
  Eval vm_compute in output_of (tick running_since_80 (sample 100 high_raw)).

Definition first_cycle : list TickIn :=
  [sample 80 low_raw; sample 100 high_raw].
Definition first_cycle_trace : list (TickIn * list event) :=
  Eval vm_compute in output_of (trace (init 1) first_cycle).

Definition second_start : list TickIn :=
  [sample 105 low_raw; sample 111 low_raw].
Definition started_at_111 : State :=
  Eval vm_compute in state_of (trace stopped_at_100 second_start) (init 1).
Definition second_start_trace : list (TickIn * list event) :=
  Eval vm_compute in output_of (trace stopped_at_100 second_start).

(** Two complete cycles: 80 to 100 and 111 to 130. *)
Definition two_cycles : list TickIn :=
  first_cycle ++ second_start ++ [sample 130 high_raw].

(** Startup with the pump output latched on. *)
Definition latched_run : list TickIn :=
  [sample 80 high_raw; sample 200 high_raw].
Definition latched_end : State :=
  Eval vm_compute in state_of (trace (boot true 1) latched_run) (init 1).
Definition latched_trace : list (TickIn * list event) :=
  Eval vm_compute in output_of (trace (boot true 1) latched_run).

(** Startup at clock reading 0, a start at t=1 and a stop at t=13. *)
Definition zero_running : State :=
  Eval vm_compute in state_of (tick (init 0) (sample 1 low_raw)) (init 0).
Definition out_zero_start : list event :=
  Eval vm_compute in output_of (tick (init 0) (sample 1 low_raw)).
Definition zero_stopped : State :=
  Eval vm_compute in
    state_of (tick zero_running (sample 13 high_raw)) (init 0).
Definition out_zero_stop : list event :=
  Eval vm_compute in output_of (tick zero_running (sample 13 high_raw)).

(** A high sample with the pump running since 80: line 98 reads the clock
    as 100, lines 142 and 146 read it as 50. *)
Definition clock_steps_back : TickIn :=
  mkTickIn 100 high_raw 100 100 50 50 100.
Definition stepped_back : State :=
  Eval vm_compute in
    state_of (tick running_since_80 clock_steps_back) (init 1).
Definition out_stepped_back : list event :=
  Eval vm_compute in output_of (tick running_since_80 clock_steps_back).

(** Samples every 0.1 s: two at 2.5 V, twelve at 1.8 V, one at 2.5 V, and a
    last one at 2.5 V more than 10 s after the start. *)
Definition short_cycle : list TickIn :=
  map (fun k => sample (1000 + inject_Z k / 10)
                  (if (k <? 2)%Z then 49648
                   else if (k <? 14)%Z then 35746 else 49648))
      [0; 1; 2; 3; 4; 5; 6; 7; 8; 9; 10; 11; 12; 13; 14; 103]%Z.

(** The pump commands of each iteration of a trace. *)
Definition commands (tr : list (TickIn * list event)) : list (list event) :=
  map (fun x => actuations (snd x)) tr.

(** ** Bus scan (lines 15-23) *)

(** Python's [hex(n)]. *)
Definition hex (n : Z) : string :=
  if (n <? 0)%Z
  then ("-0x" ++ HexadecimalString.NilZero.string_of_uint
                   (N.to_hex_uint (Z.to_N (- n))))%string
  else ("0x" ++ HexadecimalString.NilZero.string_of_uint
                  (N.to_hex_uint (Z.to_N n)))%string.

(** [scan_i2c], for the address list [i2c.scan()] returned. *)
Definition scan_i2c (devices : list Z) : list event :=
  match devices with
  | [] => [Print "No I2C devices found"]
  | _ :: _ =>
    Print "I2C devices found:" :: map (fun device => Print (hex device)) devices
  end.

(** ** Further observations on traces *)

(** [sum(ds)]. *)
Fixpoint total (ds : list Q) : Q :=
  match ds with
  | [] => 0
  | d :: rest => d + total rest
  end.

(** At each ON command, the time since the last stop as line 129 measures
    it: the clock reading of line 98 minus [last_pump_stop_time] (the
    reading of line 146 at the latest OFF command, [stopped] before any). *)
Fixpoint start_gaps (stopped : option Q)
    (tr : list (TickIn * list event)) : list Q :=
  match tr with
  | [] => []
  | (i, out) :: rest =>
    if existsb is_on out then
      match stopped with
      | Some l => (t_loop i - l) :: start_gaps stopped rest
      | None => start_gaps stopped rest
      end
    else if existsb is_off out then start_gaps (Some (t_stop i)) rest
    else start_gaps stopped rest
  end.

(** The pump commands of [cmds] alternate, the next one being ON when the
    pump is off ([on = false]) and OFF when it is on. *)
Fixpoint alternating (on : bool) (cmds : list event) : bool :=
  match cmds with
  | [] => true
  | PumpOn :: rest => negb on && alternating true rest
  | PumpOff :: rest => on && alternating false rest
  | _ :: rest => alternating on rest
  end.

Definition is_oled (e : event) : bool :=
  match e with
  | OledFill _ | OledText _ _ _ | OledShow => true
  | _ => false
  end.

Definition is_sleep (e : event) : bool :=
  match e with Sleep _ => true | _ => false end.

(** A display call with its text left out. *)
Inductive oled_call :=
| CallFill (c : Z)
| CallText (x y : Z)
| CallShow.

(** The display calls of an event list, in order: [fill] with its colour,
    [text] with its position, [show]. *)
Definition oled_layout (out : list event) : list oled_call :=
  flat_map (fun e => match e with
                     | OledFill c => [CallFill c]
                     | OledText _ x y => [CallText x y]
                     | OledShow => [CallShow]
                     | _ => []
                     end) out.

(** What [display_info] draws: the display cleared to 0, the six rows, the
    buffer shown. *)
Definition full_redraw : list oled_call :=
  [CallFill 0; CallText 0 0; CallText 0 11; CallText 0 22; CallText 0 33;
   CallText 0 44; CallText 0 55; CallShow]%Z.

(** The sleeps of an event list. *)
Definition sleeps (out : list event) : list event := filter is_sleep out.

(** The committed volume is the committed active time at the pump rate. *)
Definition volume_matches_time (s : State) : Prop :=
  litres_pumped s == PUMP_RATE_LITRES_PER_MIN * (pump_active_time s / 60).

(** A state in the rest period that started at [r], with a sample taken
    before. *)
Definition resting_state (r : Q) : State :=
  {| litres_pumped := 0;
     pump_cycles := 0;
     pump_active_time := 0;
     pump_start_time := Some 5;
     rest_start_time := Some r;
     is_resting := true;
     last_pump_stop_time := None;
     start_time := 1;
     voltage := Some 2.5;
     pump_control := true |}.

(** * Properties *)

(** ** Comparisons *)

Lemma Qlt_bool_iff (a b : Q) : Qlt_bool a b = true <-> a < b.
Proof.
  unfold Qlt_bool. rewrite negb_true_iff. split; intro H.
  - apply Qnot_le_lt. intro L. apply Qle_bool_iff in L. congruence.
  - destruct (Qle_bool b a) eqn:E; [|reflexivity].
    apply Qle_bool_iff in E. exfalso. apply (Qlt_not_le _ _ H E).
Qed.

Lemma Qlt_bool_false_iff (a b : Q) : Qlt_bool a b = false <-> b <= a.
Proof.
  unfold Qlt_bool. rewrite negb_false_iff. apply Qle_bool_iff.
Qed.

Lemma Qle_bool_false_iff (a b : Q) : Qle_bool a b = false <-> b < a.
Proof.
  split; intro H.
  - apply Qnot_le_lt. intro L. apply Qle_bool_iff in L. congruence.
  - destruct (Qle_bool a b) eqn:E; [|reflexivity].
    apply Qle_bool_iff in E. exfalso. apply (Qlt_not_le _ _ H E).
Qed.

(** ** Event-list bookkeeping *)

Lemma actuations_app (a b : list event) :
  actuations (a ++ b) = actuations a ++ actuations b.
Proof. apply filter_app. Qed.

Lemma actuations_print (x : string) (l : list event) :
  actuations (Print x :: l) = actuations l.
Proof. reflexivity. Qed.

Lemma in_actuations_on (out : list event) :
  In PumpOn out <-> In PumpOn (actuations out).
Proof.
  unfold actuations. rewrite filter_In. split; [intro H; split; auto | tauto].
Qed.

Lemma in_actuations_off (out : list event) :
  In PumpOff out <-> In PumpOff (actuations out).
Proof.
  unfold actuations. rewrite filter_In. split; [intro H; split; auto | tauto].
Qed.

Lemma count_on_actuations (out : list event) :
  count_on out = count_on (actuations out).
Proof.
  unfold count_on, actuations.
  induction out as [|e out IH]; [reflexivity|].
  destruct e; simpl; rewrite ?IH; reflexivity.
Qed.

Lemma display_info_silent s now a l d :
  display_info s now a l = Ok d -> actuations d = [].
Proof.
  unfold display_info. destruct (voltage s); [|discriminate].
  intro H. injection H as <-. reflexivity.
Qed.

Lemma display_info_ok s now a l :
  voltage s <> None -> exists d, display_info s now a l = Ok d.
Proof.
  unfold display_info. destruct (voltage s); [eexists; reflexivity | congruence].
Qed.

(** ** Case analysis of one iteration *)

Lemma control_cases s i v :
  control_outcome s i v (fst (control s i v)) (actuations (snd (control s i v))).
Proof.
  unfold control.
  destruct (Qlt_bool v LOW_VOLTAGE) eqn:Ev; simpl andb.
  - apply Qlt_bool_iff in Ev.
    assert (Hv : ~ LOW_VOLTAGE <= v) by (apply Qlt_not_le; exact Ev).
    destruct (is_resting s) eqn:Er; simpl negb.
    + destruct (pump_control s) eqn:Ep.
      * destruct (pump_start_time s) as [p|] eqn:Es.
        -- destruct (Qle_bool MIN_RUN_TIME (t_loop i - p)) eqn:Em.
           ++ cbn [fst snd]; apply outcome_stop. unfold stop_cond.
              apply Qle_bool_iff in Em. auto.
           ++ apply Qle_bool_false_iff in Em.
              cbn [fst snd]; apply outcome_stay; unfold start_cond, stop_cond.
              ** intros (_ & R & _). congruence.
              ** intros q (_ & _ & Eq & L). rewrite Es in Eq.
                 injection Eq as <-. apply (Qlt_not_le _ _ Em L).
        -- cbn [fst snd]; apply outcome_stay; unfold start_cond, stop_cond.
           ++ intros (_ & R & _). congruence.
           ++ intros q (_ & _ & Eq & _). congruence.
      * cbn [fst snd]; apply outcome_stay; unfold start_cond, stop_cond.
        -- intros (_ & R & _). congruence.
        -- intros q (_ & P & _). congruence.
    + destruct (pause_elapsed s (t_loop i)) eqn:Eg.
      * destruct (pump_control s) eqn:Ep; simpl negb.
        -- cbn [fst snd]; apply outcome_stay; unfold start_cond, stop_cond.
           ++ intros (_ & _ & _ & P). congruence.
           ++ intros q ([L|R] & _); [tauto | congruence].
        -- cbn [fst snd]; apply outcome_start. unfold start_cond. auto.
      * cbn [fst snd]; apply outcome_stay; unfold start_cond, stop_cond.
        -- intros (_ & _ & G & _). congruence.
        -- intros q ([L|R] & _); [tauto | congruence].
  - apply Qlt_bool_false_iff in Ev.
    assert (Hv : ~ v < LOW_VOLTAGE) by (apply Qle_not_lt; exact Ev).
    destruct (pump_control s) eqn:Ep.
    + destruct (pump_start_time s) as [p|] eqn:Es.
      * destruct (Qle_bool MIN_RUN_TIME (t_loop i - p)) eqn:Em.
        -- cbn [fst snd]; apply outcome_stop. unfold stop_cond.
           apply Qle_bool_iff in Em. auto.
        -- apply Qle_bool_false_iff in Em.
           cbn [fst snd]; apply outcome_stay; unfold start_cond, stop_cond.
           ++ tauto.
           ++ intros q (_ & _ & Eq & L). rewrite Es in Eq.
              injection Eq as <-. apply (Qlt_not_le _ _ Em L).
      * cbn [fst snd]; apply outcome_stay; unfold start_cond, stop_cond.
        -- tauto.
        -- intros q (_ & _ & Eq & _). congruence.
    + cbn [fst snd]; apply outcome_stay; unfold start_cond, stop_cond.
      * tauto.
      * intros q (_ & P & _). congruence.
Qed.

Lemma set_is_resting_idle s : is_resting s = false -> set_is_resting false s = s.
Proof. destruct s; simpl; intros ->; reflexivity. Qed.

Lemma poll_cases s i s' out :
  poll s i = Ok (s', out) ->
  s' = fst (control (set_voltage (read_voltage (adc_raw i)) s) i
              (read_voltage (adc_raw i))) /\
  actuations out =
  actuations (snd (control (set_voltage (read_voltage (adc_raw i)) s) i
                     (read_voltage (adc_raw i)))).
Proof.
  unfold poll. intros H. set (v := read_voltage (adc_raw i)) in *.
  destruct (estimate (set_voltage v s) i) as [a l].
  destruct (control (set_voltage v s) i v) as [s2 ctl].
  destruct (display_info s2 (t_disp i) a l) as [d|] eqn:Ed; [|discriminate].
  cbn [bind] in H. injection H as <- <-. split; [reflexivity|].
  cbn [snd]. rewrite ?actuations_print, ?actuations_app.
  rewrite (display_info_silent _ _ _ _ _ Ed).
  change (actuations [Sleep 0.1]) with (@nil event).
  now rewrite !app_nil_r.
Qed.

(** One iteration either sits out the rest period, changing nothing, or
    runs the control block on the polled state. *)
Lemma tick_cases s i s' out :
  tick s i = Ok (s', out) ->
  (is_resting s = true /\ s' = s /\ actuations out = []) \/
  control_outcome (polled (read_voltage (adc_raw i)) s) i
    (read_voltage (adc_raw i)) s' (actuations out).
Proof.
  unfold tick. destruct (is_resting s) eqn:Er.
  - destruct (rest_start_time s) as [r|]; [|discriminate].
    destruct (Qle_bool REST_DURATION (t_loop i - r)).
    + destruct (poll (set_is_resting false s) i) as [[s1 o1]|] eqn:Ep;
        [|discriminate].
      cbn [bind]. intro H. injection H as <- <-. right.
      apply poll_cases in Ep. destruct Ep as [-> Ea].
      rewrite actuations_print, Ea. apply control_cases.
    + destruct (display_info s (t_disp i) (pump_active_time s)
                  (litres_pumped s)) as [d|] eqn:Ed; [|discriminate].
      cbn [bind]. intro H. injection H as <- <-. left.
      repeat split.
      rewrite actuations_print, actuations_app.
      rewrite (display_info_silent _ _ _ _ _ Ed). reflexivity.
  - intro H. right. apply poll_cases in H. destruct H as [-> Ea].
    unfold polled. rewrite (set_is_resting_idle s Er), Ea. apply control_cases.
Qed.

(** An iteration that is not resting always completes. *)
Lemma tick_total s i :
  is_resting s = false -> exists s' out, tick s i = Ok (s', out).
Proof.
  intro Er. unfold tick, poll. rewrite Er.
  destruct (estimate _ i) as [a l].
  destruct (control _ i _) as [s2 ctl] eqn:Ec.
  destruct (display_info_ok s2 (t_disp i) a l) as [d Hd].
  - pose proof (control_cases (set_voltage (read_voltage (adc_raw i)) s) i
                  (read_voltage (adc_raw i))) as C.
    rewrite Ec in C. cbn [fst] in C. inversion C; subst; simpl; discriminate.
  - rewrite Hd. cbn [bind]. eauto.
Qed.

Lemma pause_elapsed_iff s t :
  pause_elapsed s t = true <->
  (last_pump_stop_time s = None \/
   exists l, last_pump_stop_time s = Some l /\ PAUSE_BETWEEN_RUNS <= t - l).
Proof.
  unfold pause_elapsed. destruct (last_pump_stop_time s) as [l|].
  - rewrite Qle_bool_iff. split.
    + intro H. right. exists l. auto.
    + intros [H|(l' & E & H)]; [discriminate|]. injection E as ->. exact H.
  - split; auto.
Qed.

(** Splits conjunctions and disjunctions among the hypotheses. *)
Ltac break_hyps :=
  repeat match goal with
         | H : _ /\ _ |- _ => destruct H
         | H : _ \/ _ |- _ => destruct H
         | H : False |- _ => destruct H
         | H : PumpOn = PumpOff |- _ => discriminate H
         | H : PumpOff = PumpOn |- _ => discriminate H
         end.

(** Unpacks a completed iteration into its rest case and the three outcomes
    of the control block. *)
Ltac tick_outcomes H :=
  pose proof (tick_cases _ _ _ _ H) as [(Hrest & -> & Ha) | Hoc];
  [ symmetry in Ha
  | inversion Hoc as [Hstart Es' Ha | p0 Hstop Es' Ha | Hns Hnp Es' Ha];
    subst; clear Hoc ];
  try rewrite <- Ha in *.

(** ** Starting the pump *)

(** C1. An iteration issues the actuator-ON command (and counts the cycle)
    only if the sampled voltage is below 2.1, the pump output is off, and
    either no stop has been recorded or at least PAUSE_BETWEEN_RUNS seconds
    have passed since the last one.  With the last stop at t=100 and a low
    voltage, the iteration at t=105 leaves the pump off and the iteration at
    t=111 switches it on. *)
Theorem start_needs_low_voltage_and_pause (s : State) (i : TickIn) :
  (forall s' out, tick s i = Ok (s', out) -> In PumpOn out ->
     read_voltage (adc_raw i) < LOW_VOLTAGE /\
     pump_control s = false /\
     (last_pump_stop_time s = None \/
      exists l, last_pump_stop_time s = Some l /\
                PAUSE_BETWEEN_RUNS <= t_loop i - l) /\
     pump_cycles s' = (pump_cycles s + 1)%Z /\
     pump_control s' = true) /\
  (is_resting s = false -> pump_control s = false ->
   last_pump_stop_time s = Some 100 ->
   read_voltage (adc_raw i) < LOW_VOLTAGE ->
   (t_loop i == 105 ->
    exists s' out, tick s i = Ok (s', out) /\
                   ~ In PumpOn out /\ pump_control s' = false) /\
   (t_loop i == 111 ->
    exists s' out, tick s i = Ok (s', out) /\
                   In PumpOn out /\ pump_control s' = true)).
Proof.
  split.
  - intros s' out H Hon. apply in_actuations_on in Hon.
    tick_outcomes H; simpl in Hon; try tauto.
    + destruct Hstart as (Hv & _ & Hg & Hp). simpl in Hg, Hp.
      apply pause_elapsed_iff in Hg. simpl in Hg. auto.
    + destruct Hon as [Hon|[]]. discriminate.
  - intros Er Ep El Hv.
    destruct (tick_total s i Er) as (s' & out & H).
    split; intro Ht; exists s', out; (split; [exact H|]);
      rewrite in_actuations_on.
    + tick_outcomes H; try congruence; simpl.
      * destruct Hstart as (_ & _ & Hg & _).
        apply pause_elapsed_iff in Hg. simpl in Hg.
        destruct Hg as [Hg|(l & E & Hg)]; [congruence|].
        rewrite El in E. injection E as <-.
        unfold PAUSE_BETWEEN_RUNS in Hg. exfalso. lra.
      * destruct Hstop as (_ & Hp & _). simpl in Hp. congruence.
      * split; [tauto | exact Ep].
    + tick_outcomes H; try congruence; simpl.
      * auto.
      * destruct Hstop as (_ & Hp & _). simpl in Hp. congruence.
      * exfalso. apply Hns. unfold start_cond. simpl.
        repeat split; auto.
        apply pause_elapsed_iff. simpl. right. exists 100. split; [exact El|].
        unfold PAUSE_BETWEEN_RUNS. lra.
Qed.

(** ** Stopping the pump *)

(** The switch-off: its guard and what it commits. *)
Lemma stop_commits s i s' out :
  tick s i = Ok (s', out) -> In PumpOff out ->
  LOW_VOLTAGE <= read_voltage (adc_raw i) /\
  pump_control s = true /\
  exists p, pump_start_time s = Some p /\
            MIN_RUN_TIME <= t_loop i - p /\
            pump_active_time s' = pump_active_time s + (t_off i - p) /\
            litres_pumped s' =
            litres_pumped s
              + PUMP_RATE_LITRES_PER_MIN * ((t_off i - p) / 60) /\
            pump_control s' = false.
Proof.
  intros H Hoff. apply in_actuations_off in Hoff.
  tick_outcomes H; simpl in Hoff; try tauto.
  - destruct Hoff as [Hoff|[]]. discriminate.
  - destruct Hstop as ([Hv|Hr] & Hp & Es & Hm); simpl in *;
      [|discriminate].
    repeat split; auto. exists p0. auto.
Qed.

(** C2. An iteration issues the actuator-OFF command (and commits the
    accumulators) only if the sampled voltage is at least 2.1 and at least
    MIN_RUN_TIME seconds have passed since [pump_start_time]; while the
    minimum run time has not elapsed the pump stays on whatever the
    voltage. *)
Theorem stop_needs_high_voltage_and_min_run (s : State) (i : TickIn)
    (s' : State) (out : list event) (H : tick s i = Ok (s', out)) :
  (In PumpOff out ->
     LOW_VOLTAGE <= read_voltage (adc_raw i) /\
     pump_control s = true /\
     exists p, pump_start_time s = Some p /\
               MIN_RUN_TIME <= t_loop i - p /\
               pump_active_time s' = pump_active_time s + (t_off i - p) /\
               litres_pumped s' =
               litres_pumped s
                 + PUMP_RATE_LITRES_PER_MIN * ((t_off i - p) / 60) /\
               pump_control s' = false) /\
  (forall p, pump_control s = true -> pump_start_time s = Some p ->
             t_loop i - p < MIN_RUN_TIME ->
             ~ In PumpOff out /\ pump_control s' = true /\
             pump_start_time s' = Some p).
Proof.
  split; [exact (stop_commits _ _ _ _ H)|].
  - intros p Hp Es Hlt. rewrite in_actuations_off.
    tick_outcomes H; simpl.
    + tauto.
    + destruct Hstart as (_ & _ & _ & Hp'). simpl in Hp'. congruence.
    + destruct Hstop as (_ & _ & Es' & Hm). simpl in Es'.
      rewrite Es in Es'. injection Es' as <-.
      exfalso. apply (Qlt_not_le _ _ Hlt Hm).
    + tauto.
Qed.

(** ** The recorded start time and the pump output *)

Lemma consistent_init t0 : consistent (init t0).
Proof. split; [reflexivity|]. simpl. split; [congruence | discriminate]. Qed.

Lemma consistent_tick s i s' out :
  consistent s -> tick s i = Ok (s', out) -> consistent s'.
Proof.
  intros [Er Hc] H. tick_outcomes H; unfold consistent; simpl.
  - tauto.
  - split; [reflexivity|]. split; [reflexivity | discriminate].
  - split; [reflexivity|]. split; [congruence | discriminate].
  - tauto.
Qed.

Lemma reachable_consistent s : reachable s -> consistent s.
Proof.
  induction 1 as [t0 | s i s' out _ IH H].
  - apply consistent_init.
  - exact (consistent_tick _ _ _ _ IH H).
Qed.

(** Every iteration from a reachable state completes. *)
Lemma reachable_progress s i :
  reachable s -> exists s' out, tick s i = Ok (s', out).
Proof.
  intro R. apply tick_total. exact (proj1 (reachable_consistent s R)).
Qed.

(** C3. In every state reachable from startup with the pump output off,
    [pump_start_time] is set if and only if the pump output is on; an
    iteration sets it exactly when it issues the actuator-ON command and
    clears it exactly when it issues the actuator-OFF command. *)
Theorem start_time_set_iff_running (s : State) (R : reachable s) :
  (pump_start_time s <> None <-> pump_control s = true) /\
  forall i s' out, tick s i = Ok (s', out) ->
    (In PumpOn out <->
     pump_start_time s = None /\ pump_start_time s' <> None) /\
    (In PumpOff out <->
     pump_start_time s <> None /\ pump_start_time s' = None) /\
    (In PumpOn out -> pump_start_time s' = Some (t_on i)).
Proof.
  destruct (reachable_consistent s R) as [Er Hc]. split; [exact Hc|].
  intros i s' out H. rewrite in_actuations_on, in_actuations_off.
  tick_outcomes H; simpl.
  - congruence.
  - destruct Hstart as (_ & _ & _ & Hp). simpl in Hp.
    assert (E : pump_start_time s = None).
    { destruct (pump_start_time s) eqn:E; [|reflexivity].
      assert (pump_control s = true) by (apply Hc; discriminate).
      congruence. }
    repeat split; intros; break_hyps; auto; try congruence.
  - destruct Hstop as (_ & _ & Es & _). simpl in Es.
    repeat split; intros; break_hyps; auto; try congruence.
  - repeat split; intros; break_hyps; auto; try congruence.
Qed.

(** ** The cycle counter *)

Lemma cycles_step s i s' out :
  tick s i = Ok (s', out) ->
  (pump_control s = false /\ pump_control s' = true ->
   count_on out = 1%nat /\ pump_cycles s' = (pump_cycles s + 1)%Z) /\
  (~ (pump_control s = false /\ pump_control s' = true) ->
   count_on out = 0%nat /\ pump_cycles s' = pump_cycles s).
Proof.
  intro H. rewrite count_on_actuations.
  tick_outcomes H; simpl; unfold count_on; simpl.
  - split; [intros [A B]; congruence | auto].
  - destruct Hstart as (_ & _ & _ & Hp). simpl in Hp. tauto.
  - split; [intros [_ B]; discriminate | auto].
  - split; [intros [A B]; congruence | auto].
Qed.

(** C5. [pump_cycles] goes up by exactly one in an iteration that takes the
    pump output from off to on, which issues one actuator-ON command, and
    is unchanged by every other iteration. *)
Theorem cycles_count_starts (s : State) (i : TickIn) (s' : State)
    (out : list event) (H : tick s i = Ok (s', out)) :
  (pump_control s = false /\ pump_control s' = true ->
   count_on out = 1%nat /\ pump_cycles s' = (pump_cycles s + 1)%Z) /\
  (~ (pump_control s = false /\ pump_control s' = true) ->
   count_on out = 0%nat /\ pump_cycles s' = pump_cycles s).
Proof. exact (cycles_step _ _ _ _ H). Qed.

Lemma events_cons i out tr : events ((i, out) :: tr) = out ++ events tr.
Proof. reflexivity. Qed.

Lemma trace_cons s i rest s2 tr :
  trace s (i :: rest) = Ok (s2, tr) ->
  exists s1 out tr', tick s i = Ok (s1, out) /\
                     trace s1 rest = Ok (s2, tr') /\ tr = (i, out) :: tr'.
Proof.
  cbn [trace]. destruct (tick s i) as [[s1 out]|]; [|discriminate].
  cbn [bind]. destruct (trace s1 rest) as [[s2' tr']|] eqn:Er; [|discriminate].
  cbn [bind]. intro E. injection E as <- <-.
  exists s1, out, tr'. auto.
Qed.

Lemma count_on_app a b : count_on (a ++ b) = (count_on a + count_on b)%nat.
Proof. unfold count_on. now rewrite filter_app, length_app. Qed.

(** Over a whole run the counter grows by the number of actuator-ON
    commands issued. *)
Lemma cycles_count_starts_trace ins : forall s s' tr,
  trace s ins = Ok (s', tr) ->
  pump_cycles s' = (pump_cycles s + Z.of_nat (count_on (events tr)))%Z.
Proof.
  induction ins as [|i rest IH]; intros s s' tr H.
  - injection H as <- <-. simpl. lia.
  - apply trace_cons in H. destruct H as (s1 & out & tr' & Ht & Hr & ->).
    rewrite events_cons, count_on_app, (IH _ _ _ Hr).
    destruct (cycles_step _ _ _ _ Ht) as [Hy Hn].
    destruct (pump_control s) eqn:Ea; destruct (pump_control s1) eqn:Eb;
      try (destruct Hn as [-> ->]; [intros [A B]; congruence | lia]).
    destruct Hy as [-> ->]; [auto | lia].
Qed.

(** ** The rest branch *)

Lemma control_no_rest_marker s i v e :
  In e (snd (control s i v)) -> ~ rest_marker e.
Proof.
  unfold control, rest_marker.
  destruct (Qlt_bool v LOW_VOLTAGE && negb (is_resting s)).
  - destruct (pause_elapsed s (t_loop i)); [|intros []].
    destruct (negb (pump_control s)); cbn [snd In]; intros He X;
      break_hyps; subst; discriminate.
  - destruct (pump_control s); [|intros []].
    destruct (pump_start_time s) as [p|]; [|intros []].
    destruct (Qle_bool MIN_RUN_TIME (t_loop i - p)); cbn [snd In];
      intros He X; break_hyps; subst; discriminate.
Qed.

Lemma display_no_rest_marker s now a l d e :
  display_info s now a l = Ok d -> In e d -> ~ rest_marker e.
Proof.
  unfold display_info, rest_marker. destruct (voltage s); [|discriminate].
  intro H. injection H as <-. cbn [In]. intros He X.
  break_hyps; subst; discriminate.
Qed.

Lemma poll_no_rest_marker s i s' out e :
  poll s i = Ok (s', out) -> In e out -> ~ rest_marker e.
Proof.
  unfold poll. set (v := read_voltage (adc_raw i)).
  destruct (estimate (set_voltage v s) i) as [a l].
  pose proof (control_no_rest_marker (set_voltage v s) i v e) as Hctl.
  destruct (control (set_voltage v s) i v) as [s2 ctl].
  destruct (display_info s2 (t_disp i) a l) as [d|] eqn:Ed; [|discriminate].
  cbn [bind]. intro H. injection H as <- <-.
  cbn [In]. rewrite !in_app_iff. cbn [In snd] in *.
  intros [He|[He|[He|[He|[He|[]]]]]].
  - subst e. unfold rest_marker. cbn [append]. intro X.
    break_hyps; discriminate.
  - subst e. unfold rest_marker. cbn [append]. intro X.
    break_hyps; discriminate.
  - auto.
  - exact (display_no_rest_marker _ _ _ _ _ _ Ed He).
  - subst e. unfold rest_marker. intro X. break_hyps; discriminate.
Qed.

(** C6. In every state reachable from startup [is_resting] is False, so an
    iteration goes straight to the polling part and never emits what the
    rest block emits. *)
Theorem never_resting (s : State) (R : reachable s) :
  is_resting s = false /\
  forall i, tick s i = poll s i /\
            forall s' out e, tick s i = Ok (s', out) ->
                             In e out -> ~ rest_marker e.
Proof.
  pose proof (proj1 (reachable_consistent s R)) as Er.
  split; [exact Er|]. intro i.
  assert (E : tick s i = poll s i) by (unfold tick; rewrite Er; reflexivity).
  split; [exact E|]. intros s' out e H. rewrite E in H.
  exact (poll_no_rest_marker _ _ _ _ _ H).
Qed.

(** ** Pump on without a start time *)

Lemma stuck_on_tick s i s' out :
  pump_control s = true -> pump_start_time s = None ->
  tick s i = Ok (s', out) ->
  ~ In PumpOff out /\ pump_control s' = true /\ pump_start_time s' = None.
Proof.
  intros Hp Es H. rewrite in_actuations_off.
  tick_outcomes H; simpl.
  - tauto.
  - destruct Hstart as (_ & _ & _ & Hp'). simpl in Hp'. congruence.
  - destruct Hstop as (_ & _ & Es' & _). simpl in Es'. congruence.
  - tauto.
Qed.

(** C9. From a state where the pump output is on and [pump_start_time] is
    None, no iteration of any run issues the actuator-OFF command, whatever
    the voltages: the output stays on and the start time stays None. *)
Theorem on_without_start_time_never_stops (ins : list TickIn) :
  forall (s s' : State) (tr : list (TickIn * list event)),
    pump_control s = true -> pump_start_time s = None ->
    trace s ins = Ok (s', tr) ->
    ~ In PumpOff (events tr) /\
    pump_control s' = true /\ pump_start_time s' = None.
Proof.
  induction ins as [|i rest IH]; intros s s' tr Hp Es H.
  - injection H as <- <-. simpl. tauto.
  - apply trace_cons in H. destruct H as (s1 & out & tr' & Ht & Hr & ->).
    destruct (stuck_on_tick _ _ _ _ Hp Es Ht) as (Hno & Hp1 & Es1).
    destruct (IH _ _ _ Hp1 Es1 Hr) as (Hno' & Hp2 & Es2).
    rewrite events_cons, in_app_iff. tauto.
Qed.

(** ** Committed accumulators and display estimates *)

(** An iteration that does not switch the pump off leaves both committed
    accumulators as they were. *)
Lemma tick_frame s i s' out :
  tick s i = Ok (s', out) -> ~ In PumpOff out ->
  litres_pumped s' = litres_pumped s /\
  pump_active_time s' = pump_active_time s.
Proof.
  intros H Hno. rewrite in_actuations_off in Hno.
  tick_outcomes H; simpl in *; tauto.
Qed.

(** The three figures [display_info] derives from its arguments. *)
Lemma display_info_shows s now a l d :
  display_info s now a l = Ok d ->
  In (OledText ("PmpON: " ++ format_minutes a ++ " m") 0 11) d /\
  In (OledText (" Duty: " ++ (Fmt.fixed 2 (reported_duty s now a) ++ " %"))
        0 22) d /\
  In (OledText ("  Vol: " ++ (Fmt.fixed 2 l ++ " L")) 0 44) d.
Proof.
  unfold display_info. destruct (voltage s); [|discriminate].
  intro H. injection H as <-. unfold reported_duty. cbn [In].
  repeat split.
  - do 2 right; left; reflexivity.
  - do 3 right; left; reflexivity.
  - do 5 right; left; reflexivity.
Qed.

Lemma poll_display s i s' out :
  poll s i = Ok (s', out) ->
  exists d,
    display_info s' (t_disp i)
      (fst (estimate (set_voltage (read_voltage (adc_raw i)) s) i))
      (snd (estimate (set_voltage (read_voltage (adc_raw i)) s) i)) = Ok d /\
    forall e, In e d -> In e out.
Proof.
  unfold poll. set (v := read_voltage (adc_raw i)).
  destruct (estimate (set_voltage v s) i) as [a l].
  destruct (control (set_voltage v s) i v) as [s2 ctl].
  destruct (display_info s2 (t_disp i) a l) as [d|] eqn:Ed; [|discriminate].
  cbn [bind]. intro H. injection H as <- <-. exists d. split; [exact Ed|].
  intros e He. cbn [In]. rewrite !in_app_iff. auto.
Qed.

(** C8. While the pump runs, an iteration shows the real-time estimates
    (committed value plus the run in progress) on the display, and unless
    it switches the pump off it leaves [litres_pumped] and
    [pump_active_time] untouched; the switch-off adds the finished run to
    the committed values once. *)
Theorem estimates_leave_accumulators (s : State) (i : TickIn) (s' : State)
    (out : list event) (H : tick s i = Ok (s', out)) :
  (~ In PumpOff out ->
   litres_pumped s' = litres_pumped s /\
   pump_active_time s' = pump_active_time s) /\
  (forall p, is_resting s = false -> pump_control s = true ->
             pump_start_time s = Some p ->
     In (OledText ("PmpON: "
                   ++ format_minutes (pump_active_time s + (t_est i - p))
                   ++ " m") 0 11) out /\
     In (OledText ("  Vol: "
                   ++ (Fmt.fixed 2
                         (litres_pumped s
                          + PUMP_RATE_LITRES_PER_MIN * ((t_est i - p) / 60))
                       ++ " L")) 0 44) out) /\
  (In PumpOff out ->
   exists p, pump_start_time s = Some p /\
     pump_active_time s' = pump_active_time s + (t_off i - p) /\
     litres_pumped s' =
     litres_pumped s + PUMP_RATE_LITRES_PER_MIN * ((t_off i - p) / 60)).
Proof.
  split; [exact (tick_frame _ _ _ _ H)|]. split.
  - intros p Er Hp Es.
    assert (E : tick s i = poll s i) by (unfold tick; rewrite Er; reflexivity).
    rewrite E in H. destruct (poll_display _ _ _ _ H) as (d & Hd & Hin).
    unfold estimate in Hd. cbn [pump_control pump_start_time set_voltage
      pump_active_time litres_pumped] in Hd.
    rewrite Hp, Es in Hd. cbn [fst snd] in Hd.
    destruct (display_info_shows _ _ _ _ _ Hd) as (A & _ & B).
    split; apply Hin; assumption.
  - intro Hoff.
    destruct (stop_commits _ _ _ _ H Hoff) as (_ & _ & p & Es & _ & Ea & El & _).
    exists p. auto.
Qed.

(** ** Volume accounting *)

Lemma existsb_on_actuations out :
  existsb is_on out = existsb is_on (actuations out).
Proof.
  unfold actuations. induction out as [|e out IH]; [reflexivity|].
  destruct e; simpl; rewrite ?IH; reflexivity.
Qed.

Lemma existsb_off_actuations out :
  existsb is_off out = existsb is_off (actuations out).
Proof.
  unfold actuations. induction out as [|e out IH]; [reflexivity|].
  destruct e; simpl; rewrite ?IH; reflexivity.
Qed.

Lemma cycle_durations_cons started i out tr :
  cycle_durations started ((i, out) :: tr) =
  if existsb is_on (actuations out)
  then cycle_durations (Some (t_on i)) tr
  else if existsb is_off (actuations out) then
         match started with
         | Some p => (t_off i - p) :: cycle_durations None tr
         | None => cycle_durations None tr
         end
       else cycle_durations started tr.
Proof.
  cbn [cycle_durations].
  now rewrite <- existsb_on_actuations, <- existsb_off_actuations.
Qed.

Lemma div60 (x : Q) : x / 60 == x * (1 # 60).
Proof. unfold Qdiv. reflexivity. Qed.

(** From a consistent state, a run adds to [litres_pumped] the volume of the
    cycles it completes; [pump_start_time] is the start still open. *)
Lemma litres_trace ins : forall s s' tr,
  consistent s -> trace s ins = Ok (s', tr) ->
  litres_pumped s' ==
  litres_pumped s + volume_of (cycle_durations (pump_start_time s) tr).
Proof.
  induction ins as [|i rest IH]; intros s s' tr Hc H.
  - injection H as <- <-. simpl. lra.
  - apply trace_cons in H. destruct H as (s1 & out & tr' & Ht & Hr & ->).
    pose proof (consistent_tick _ _ _ _ Hc Ht) as Hc1.
    rewrite (IH _ _ _ Hc1 Hr), cycle_durations_cons.
    tick_outcomes Ht; simpl.
    + reflexivity.
    + reflexivity.
    + destruct Hstop as (_ & _ & Es & _). simpl in Es. rewrite Es.
      simpl. rewrite !div60. lra.
    + reflexivity.
Qed.

Lemma litres_tick_mono s i s' out :
  tick s i = Ok (s', out) -> stop_after_loop i ->
  litres_pumped s <= litres_pumped s'.
Proof.
  intros H Hord. unfold stop_after_loop in Hord.
  tick_outcomes H; simpl; try apply Qle_refl.
  destruct Hstop as (_ & _ & _ & Hm).
  unfold MIN_RUN_TIME in Hm. unfold PUMP_RATE_LITRES_PER_MIN.
  rewrite div60. lra.
Qed.

Lemma litres_trace_frame ins : forall s s' tr,
  trace s ins = Ok (s', tr) -> ~ In PumpOff (events tr) ->
  litres_pumped s' = litres_pumped s.
Proof.
  induction ins as [|i rest IH]; intros s s' tr H Hno.
  - injection H as <- <-. reflexivity.
  - apply trace_cons in H. destruct H as (s1 & out & tr' & Ht & Hr & ->).
    rewrite events_cons, in_app_iff in Hno.
    rewrite (IH _ _ _ Hr) by tauto.
    apply (tick_frame _ _ _ _ Ht). tauto.
Qed.

Lemma litres_trace_mono ins : forall s s' tr,
  trace s ins = Ok (s', tr) -> Forall stop_after_loop ins ->
  litres_pumped s <= litres_pumped s'.
Proof.
  induction ins as [|i rest IH]; intros s s' tr H Hord.
  - injection H as <- <-. apply Qle_refl.
  - apply trace_cons in H. destruct H as (s1 & out & tr' & Ht & Hr & ->).
    inversion Hord as [|? ? Hi Hrest]; subst.
    apply Qle_trans with (litres_pumped s1).
    + exact (litres_tick_mono _ _ _ _ Ht Hi).
    + exact (IH _ _ _ Hr Hrest).
Qed.

(** C4 (amended). After a run from startup, [litres_pumped] is the sum of
    PUMP_RATE_LITRES_PER_MIN * (d / 60) over the run lengths d of the
    completed (start, stop) cycles.  Over any further stretch of the run it
    is unchanged unless an actuator-OFF command is issued, and it does not
    decrease provided that in each iteration of the stretch the clock
    reading of line 142 is no earlier than that of line 98. *)
Theorem litres_accounting (t0 : Q) (ins1 ins2 : list TickIn)
    (s1 s2 : State) (tr1 tr2 : list (TickIn * list event))
    (H1 : trace (init t0) ins1 = Ok (s1, tr1))
    (H2 : trace s1 ins2 = Ok (s2, tr2)) :
  litres_pumped s1 == volume_of (cycle_durations None tr1) /\
  (~ In PumpOff (events tr2) -> litres_pumped s2 = litres_pumped s1) /\
  (Forall stop_after_loop ins2 -> litres_pumped s1 <= litres_pumped s2).
Proof.
  split; [|split].
  - rewrite (litres_trace _ _ _ _ (consistent_init t0) H1). simpl. lra.
  - exact (litres_trace_frame _ _ _ _ H2).
  - exact (litres_trace_mono _ _ _ _ H2).
Qed.

(** ** Duty cycle *)

Lemma duty_bounds start now a :
  ~ start == 0 -> 0 <= a -> a <= now - start ->
  0 <= pump_duty_cycle_of a (elapsed_time_of start now) /\
  pump_duty_cycle_of a (elapsed_time_of start now) <= 100.
Proof.
  intros Hs H0 H1. unfold elapsed_time_of, pump_duty_cycle_of.
  destruct (Qeq_bool start 0) eqn:E.
  - apply Qeq_bool_iff in E. contradiction.
  - cbn [negb]. destruct (Qlt_bool 0 (now - start)) eqn:Ep.
    + apply Qlt_bool_iff in Ep.
      assert (L : 0 <= a / (now - start))
        by (apply Qle_shift_div_l; [exact Ep | lra]).
      assert (U : a / (now - start) <= 1)
        by (apply Qle_shift_div_r; [exact Ep | lra]).
      split; lra.
    + split; lra.
Qed.

(** C7 (amended). When [start_time] is not zero and the active time handed
    to the display routine is between zero and the elapsed process time,
    the duty cycle the routine reports lies in [0, 100]. *)
Theorem duty_within_bounds (s : State) (now a : Q)
    (Hstart : ~ start_time s == 0)
    (Hnonneg : 0 <= a) (Hwithin : a <= now - start_time s) :
  0 <= reported_duty s now a /\ reported_duty s now a <= 100.
Proof. unfold reported_duty. apply duty_bounds; assumption. Qed.

(** ** Number formatting *)

(** C10. [format_hours(3600)] is "1.000" and [format_minutes(120)] is
    "2.00". *)
Theorem format_hours_minutes_examples :
  format_hours 3600 = "1.000"%string /\ format_minutes 120 = "2.00"%string.
Proof. split; vm_compute; reflexivity. Qed.

(** ** Duty cycle along a run *)

Lemma tick_start_time s i s' out :
  tick s i = Ok (s', out) -> start_time s' = start_time s.
Proof. intro H. tick_outcomes H; reflexivity. Qed.

Lemma timed_tick s last i s' out :
  consistent s -> timed s last -> last <= t_loop i -> in_order i ->
  tick s i = Ok (s', out) -> timed s' (t_disp i).
Proof.
  intros [Er Hc] (Hs & Ha0 & Hp) Hl (O1 & O2 & O3 & O4 & O5) H.
  unfold timed in *.
  tick_outcomes H; simpl.
  - congruence.
  - destruct Hstart as (_ & _ & _ & Hoff). simpl in Hoff.
    destruct (pump_start_time s) as [p|] eqn:Es.
    + assert (pump_control s = true) by (apply Hc; discriminate). congruence.
    + repeat split; lra.
  - destruct Hstop as (_ & _ & Es & Hm). simpl in Es. rewrite Es in Hp.
    unfold MIN_RUN_TIME in Hm. repeat split; lra.
  - destruct (pump_start_time s) as [p|]; repeat split; lra.
Qed.

Lemma reachable_at_timed s last :
  reachable_at s last -> consistent s /\ timed s last.
Proof.
  induction 1 as [t0 | s last i s' out _ [IHc IHt] Hl Ho H].
  - split; [apply consistent_init|]. unfold timed. simpl. repeat split; lra.
  - split.
    + exact (consistent_tick _ _ _ _ IHc H).
    + exact (timed_tick _ _ _ _ _ IHc IHt Hl Ho H).
Qed.

(** Along a run from startup at a non-zero clock reading, under a clock that
    never runs backwards, every duty cycle put on the display lies in
    [0, 100]. *)
Lemma displayed_duty_within_bounds s last i s' out :
  reachable_at s last -> ~ start_time s == 0 ->
  last <= t_loop i -> in_order i -> tick s i = Ok (s', out) ->
  exists duty,
    In (OledText (" Duty: " ++ (Fmt.fixed 2 duty ++ " %")) 0 22) out /\
    0 <= duty /\ duty <= 100.
Proof.
  intros R Hz Hl (O1 & O2 & O3 & O4 & O5) H.
  destruct (reachable_at_timed _ _ R) as [[Er Hc] (Hs & Ha0 & Hp)].
  pose proof (tick_start_time _ _ _ _ H) as Est.
  assert (E : tick s i = poll s i) by (unfold tick; rewrite Er; reflexivity).
  rewrite E in H. destruct (poll_display _ _ _ _ H) as (d & Hd & Hin).
  set (a := fst (estimate (set_voltage (read_voltage (adc_raw i)) s) i)) in *.
  destruct (display_info_shows _ _ _ _ _ Hd) as (_ & Hduty & _).
  exists (reported_duty s' (t_disp i) a). split; [apply Hin; exact Hduty|].
  unfold reported_duty. rewrite Est. apply duty_bounds; [exact Hz | |];
    subst a; unfold estimate; cbn [pump_control pump_start_time set_voltage
      pump_active_time litres_pumped];
    destruct (pump_control s) eqn:Ep;
    destruct (pump_start_time s) as [p|] eqn:Es; cbn [fst]; lra.
Qed.

(** ** The concrete runs evaluated *)

Lemma running_since_80_tick :
  tick (init 1) (sample 80 low_raw) = Ok (running_since_80, out_start_80).
Proof. vm_compute. reflexivity. Qed.

Lemma held_at_85_tick :
  tick running_since_80 (sample 85 high_raw) = Ok (held_at_85, out_hold_85).
Proof. vm_compute. reflexivity. Qed.

Lemma stopped_at_100_tick :
  tick running_since_80 (sample 100 high_raw)
  = Ok (stopped_at_100, out_stop_100).
Proof. vm_compute. reflexivity. Qed.

Lemma first_cycle_run :
  trace (init 1) first_cycle = Ok (stopped_at_100, first_cycle_trace).
Proof. vm_compute. reflexivity. Qed.

Lemma second_start_run :
  trace stopped_at_100 second_start = Ok (started_at_111, second_start_trace).
Proof. vm_compute. reflexivity. Qed.

Lemma latched_run_trace :
  trace (boot true 1) latched_run = Ok (latched_end, latched_trace).
Proof. vm_compute. reflexivity. Qed.

Lemma zero_running_tick :
  tick (init 0) (sample 1 low_raw) = Ok (zero_running, out_zero_start).
Proof. vm_compute. reflexivity. Qed.

Lemma zero_stopped_tick :
  tick zero_running (sample 13 high_raw) = Ok (zero_stopped, out_zero_stop).
Proof. vm_compute. reflexivity. Qed.

Lemma running_since_80_reachable : reachable running_since_80.
Proof.
  exact (reach_tick _ _ _ _ (reach_init 1) running_since_80_tick).
Qed.

Lemma zero_running_reachable_at : reachable_at zero_running 1.
Proof.
  apply (reach_at_tick (init 0) 0 (sample 1 low_raw) _ out_zero_start).
  - apply reach_at_init.
  - simpl. lra.
  - unfold in_order. simpl. repeat split; lra.
  - exact zero_running_tick.
Qed.

(** ** The properties at the concrete runs *)

Lemma start_needs_low_voltage_and_pause_witness :
  (exists s' out, tick stopped_at_100 (sample 105 low_raw) = Ok (s', out) /\
                  ~ In PumpOn out /\ pump_control s' = false) /\
  (exists s' out, tick stopped_at_100 (sample 111 low_raw) = Ok (s', out) /\
                  In PumpOn out /\ pump_control s' = true).
Proof.
  split.
  - refine (proj1 (proj2 (start_needs_low_voltage_and_pause
                            stopped_at_100 (sample 105 low_raw)) _ _ _ _) _);
      vm_compute; reflexivity.
  - refine (proj2 (proj2 (start_needs_low_voltage_and_pause
                            stopped_at_100 (sample 111 low_raw)) _ _ _ _) _);
      vm_compute; reflexivity.
Defined.

Lemma stop_needs_high_voltage_and_min_run_witness :
  ~ In PumpOff out_hold_85 /\ pump_control held_at_85 = true /\
  pump_start_time held_at_85 = Some 80.
Proof.
  refine (proj2 (stop_needs_high_voltage_and_min_run running_since_80
                   (sample 85 high_raw) held_at_85 out_hold_85
                   held_at_85_tick) 80 _ _ _);
    vm_compute; reflexivity.
Defined.

Lemma start_time_set_iff_running_witness :
  pump_start_time running_since_80 <> None <->
  pump_control running_since_80 = true.
Proof.
  exact (proj1 (start_time_set_iff_running running_since_80
                  running_since_80_reachable)).
Defined.

Lemma litres_accounting_witness :
  litres_pumped stopped_at_100
  == volume_of (cycle_durations None first_cycle_trace) /\
  litres_pumped started_at_111 = litres_pumped stopped_at_100 /\
  litres_pumped stopped_at_100 <= litres_pumped started_at_111.
Proof.
  destruct (litres_accounting 1 first_cycle second_start stopped_at_100
              started_at_111 first_cycle_trace second_start_trace
              first_cycle_run second_start_run) as (Hsum & Hframe & Hmono).
  split; [exact Hsum|]. split.
  - apply Hframe. vm_compute. intro H.
    repeat destruct H as [H|H]; try discriminate H. exact H.
  - apply Hmono. repeat constructor; vm_compute; discriminate.
Defined.

Lemma cycles_count_starts_witness :
  count_on out_start_80 = 1%nat /\
  pump_cycles running_since_80 = (pump_cycles (init 1) + 1)%Z.
Proof.
  refine (proj1 (cycles_count_starts (init 1) (sample 80 low_raw)
                   running_since_80 out_start_80 running_since_80_tick) _).
  split; reflexivity.
Defined.

Lemma never_resting_witness : is_resting running_since_80 = false.
Proof.
  exact (proj1 (never_resting running_since_80 running_since_80_reachable)).
Defined.

Lemma duty_within_bounds_witness :
  0 <= reported_duty stopped_at_100 3601 600 /\
  reported_duty stopped_at_100 3601 600 <= 100.
Proof.
  apply (duty_within_bounds stopped_at_100 3601 600).
  - intro E. vm_compute in E. discriminate E.
  - vm_compute. discriminate.
  - vm_compute. discriminate.
Defined.

Lemma estimates_leave_accumulators_witness :
  litres_pumped held_at_85 = litres_pumped running_since_80 /\
  pump_active_time held_at_85 = pump_active_time running_since_80.
Proof.
  refine (proj1 (estimates_leave_accumulators running_since_80
                   (sample 85 high_raw) held_at_85 out_hold_85
                   held_at_85_tick) _).
  vm_compute. intros H. repeat destruct H as [H|H]; try discriminate H.
  exact H.
Defined.

Lemma on_without_start_time_never_stops_witness :
  ~ In PumpOff (events latched_trace) /\
  pump_control latched_end = true /\ pump_start_time latched_end = None.
Proof.
  apply (on_without_start_time_never_stops latched_run (boot true 1)
           latched_end latched_trace); vm_compute; reflexivity.
Defined.

(** C7, as stated, fails when the clock reads 0 at startup: line 76 takes a
    zero [start_time] as unset and uses an elapsed time of 1.  After a start
    at t=1, at t=13 the run in progress gives an active time of 12 s within
    13 s of process time, and the display shows a duty cycle of 1200 %. *)
Lemma duty_above_100_when_clock_starts_at_zero :
  reachable_at zero_running 1 /\
  tick zero_running (sample 13 high_raw) = Ok (zero_stopped, out_zero_stop) /\
  0 <= 12 /\ 12 <= 13 - start_time zero_running /\
  0 <= 13 - start_time zero_running /\
  reported_duty zero_running 13 12 == 1200 /\
  ~ reported_duty zero_running 13 12 <= 100 /\
  In (OledText " Duty: 1200.00 %" 0 22) out_zero_stop.
Proof.
  split; [exact zero_running_reachable_at|].
  split; [exact zero_stopped_tick|].
  repeat split; try (vm_compute; discriminate).
  - vm_compute. intro H. apply H. reflexivity.
  - vm_compute. do 7 right. left. reflexivity.
Qed.

(** ** Scenarios of the specification *)

(** Elapsed process time 3600 s and active time 600 s are shown as a duty
    cycle of 16.67 %. *)
Example duty_one_sixth :
  (Fmt.fixed 2 (pump_duty_cycle_of 600 3600) ++ " %")%string
  = "16.67 %"%string.
Proof. vm_compute. reflexivity. Qed.

(** Two cycles of 20 s and 19 s are found in the trace and make up the
    committed volume. *)
Example two_cycles_volume :
  cycle_durations None (output_of (trace (init 1) two_cycles)) = [20; 19] /\
  litres_pumped (state_of (trace (init 1) two_cycles) (init 1))
  == 6.4 * (20 / 60) + 6.4 * (19 / 60).
Proof. split; vm_compute; reflexivity. Qed.

(** The pump is switched on at the first low sample, stays on at the high
    sample 1.2 s later, and is switched off only at the high sample 10.1 s
    after the start. *)
Example short_cycle_scenario :
  commands (output_of (trace (init 1000) short_cycle)) =
  [[]; []; [PumpOn]; []; []; []; []; []; []; []; []; []; []; []; [];
   [PumpOff]].
Proof. vm_compute. reflexivity. Qed.


(** * Further properties of the code *)

(** ** read_voltage (lines 44-48) *)

Lemma read_voltage_le (a b : Z) :
  (a <= b)%Z -> read_voltage a <= read_voltage b.
Proof.
  intro H. unfold read_voltage, Qle, Qdiv, Qmult, Qinv, inject_Z. simpl. lia.
Qed.

(** For every 16-bit sample the voltage is within 0 and 3.3, both ends
    reached, and a larger sample never gives a smaller voltage. *)
Theorem read_voltage_range (raw raw' : Z)
    (Hlo : (0 <= raw)%Z) (Hord : (raw <= raw')%Z) (Hhi : (raw' <= 65535)%Z) :
  0 <= read_voltage raw /\ read_voltage raw <= read_voltage raw' /\
  read_voltage raw' <= 3.3 /\
  read_voltage 0 == 0 /\ read_voltage 65535 == 3.3.
Proof.
  repeat split.
  - apply Qle_trans with (read_voltage 0);
      [vm_compute; discriminate | exact (read_voltage_le _ _ Hlo)].
  - exact (read_voltage_le _ _ Hord).
  - apply Qle_trans with (read_voltage 65535);
      [exact (read_voltage_le _ _ Hhi) | vm_compute; discriminate].
Qed.

Lemma read_voltage_range_witness :
  0 <= read_voltage 30000 /\ read_voltage 30000 <= read_voltage 50000 /\
  read_voltage 50000 <= 3.3 /\
  read_voltage 0 == 0 /\ read_voltage 65535 == 3.3.
Proof. apply (read_voltage_range 30000 50000); lia. Defined.

(** The comparison of line 127 in ADC counts: the voltage is below 2.1
    exactly for samples up to 41704. *)
Theorem low_voltage_in_counts (raw : Z) :
  read_voltage raw < LOW_VOLTAGE <-> (raw <= 41704)%Z.
Proof.
  unfold read_voltage, LOW_VOLTAGE, Qlt, Qdiv, Qmult, Qinv, inject_Z.
  simpl. lia.
Qed.

(** ** scan_i2c (lines 15-23) *)

Lemma hex_not_message (n : Z) : hex n <> "No I2C devices found"%string.
Proof.
  unfold hex. destruct (n <? 0)%Z; cbn [append]; discriminate.
Qed.

(** The scan reports "No I2C devices found" exactly when the address list
    is empty; otherwise it prints the header followed by one line per
    address, in hexadecimal and in order. *)
Theorem scan_i2c_report (devices : list Z) :
  (In (Print "No I2C devices found") (scan_i2c devices) <-> devices = []) /\
  (devices <> [] ->
   scan_i2c devices
   = Print "I2C devices found:" :: map (fun d => Print (hex d)) devices /\
   List.length (scan_i2c devices) = S (List.length devices)).
Proof.
  destruct devices as [|d ds].
  - split; [split; [reflexivity | intros _; left; reflexivity]|].
    intro H. contradiction.
  - split.
    + split; [|discriminate]. cbn [scan_i2c]. intros [H|H]; [discriminate|].
      apply in_map_iff in H. destruct H as (x & E & _).
      injection E as E. exfalso. exact (hex_not_message x E).
    + intros _. split; [reflexivity|].
      cbn [scan_i2c List.length]. now rewrite length_map.
Qed.

Lemma scan_i2c_report_witness :
  scan_i2c [60%Z] = [Print "I2C devices found:"; Print "0x3c"] /\
  List.length (scan_i2c [60%Z]) = 2%nat.
Proof.
  apply (proj2 (scan_i2c_report [60%Z])). discriminate.
Defined.

(** ** Exceptions of the loop body *)

Lemma poll_total s i : exists s' out, poll s i = Ok (s', out).
Proof.
  unfold poll.
  destruct (estimate _ i) as [a l].
  destruct (control _ i _) as [s2 ctl] eqn:Ec.
  destruct (display_info_ok s2 (t_disp i) a l) as [d Hd].
  - pose proof (control_cases (set_voltage (read_voltage (adc_raw i)) s) i
                  (read_voltage (adc_raw i))) as C.
    rewrite Ec in C. cbn [fst] in C. inversion C; subst; simpl; discriminate.
  - rewrite Hd. cbn [bind]. eauto.
Qed.

(** Failures of the device calls themselves (ADC read, pin write, display
    transfer) are outside this model: [exn] holds the exceptions the
    script's own expressions can raise.  With the device calls succeeding,
    an iteration raises in two cases only, both inside the rest block:
    TypeError when [is_resting] is set without a [rest_start_time], and
    NameError when the rest period is still running and [display_info] finds
    the global [voltage] unbound. *)
Theorem tick_raises_iff (s : State) (i : TickIn) (e : exn) :
  tick s i = Raise e <->
  is_resting s = true /\
  ((rest_start_time s = None /\ e = TypeError) \/
   (exists r, rest_start_time s = Some r /\
              t_loop i - r < REST_DURATION /\
              voltage s = None /\ e = NameError)).
Proof.
  unfold tick. destruct (is_resting s) eqn:Er.
  - destruct (rest_start_time s) as [r|] eqn:Est.
    + destruct (Qle_bool REST_DURATION (t_loop i - r)) eqn:Eq.
      * destruct (poll_total (set_is_resting false s) i) as (s' & out & Hp).
        rewrite Hp. cbn [bind]. split; [discriminate|].
        intros (_ & [(N & _) | (r' & Er' & Hlt & _)]); [discriminate|].
        injection Er' as <-. apply Qle_bool_iff in Eq.
        exfalso. exact (Qlt_not_le _ _ Hlt Eq).
      * apply Qle_bool_false_iff in Eq.
        unfold display_info. destruct (voltage s) as [v|] eqn:Ev; cbn [bind].
        -- split; [discriminate|].
           intros (_ & [(N & _) | (r' & _ & _ & N & _)]); discriminate.
        -- split.
           ++ intro H. injection H as <-. split; [reflexivity|].
              right. exists r. auto.
           ++ intros (_ & [(N & _) | (r' & _ & _ & _ & ->)]);
                [discriminate | reflexivity].
    + split.
      * intro H. injection H as <-. auto.
      * intros (_ & [(_ & ->) | (r' & N & _)]); [reflexivity | discriminate].
  - destruct (poll_total s i) as (s' & out & Hp). rewrite Hp.
    split; [discriminate | intros (N & _); discriminate].
Qed.

(** From startup, whatever the clock and the sensor return, every run of
    the loop completes: no iteration raises. *)
Theorem startup_never_raises (t0 : Q) (ins : list TickIn) :
  exists s' tr, trace (init t0) ins = Ok (s', tr) /\ reachable s'.
Proof.
  assert (G : forall ins s, reachable s ->
            exists s' tr, trace s ins = Ok (s', tr) /\ reachable s').
  { clear. induction ins as [|i rest IH]; intros s R.
    - exists s, []. split; [reflexivity | exact R].
    - destruct (tick_total s i (proj1 (reachable_consistent s R)))
        as (s1 & out & Ht).
      destruct (IH s1 (reach_tick _ _ _ _ R Ht)) as (s2 & tr & Hr & R2).
      exists s2, ((i, out) :: tr). split; [|exact R2].
      cbn [trace]. rewrite Ht. cbn [bind]. rewrite Hr. reflexivity. }
  apply G. apply reach_init.
Qed.

(** ** The rest block (lines 100-108) *)

Lemma rest_hold_tick s i r v :
  is_resting s = true -> rest_start_time s = Some r -> voltage s = Some v ->
  t_loop i - r < REST_DURATION ->
  exists out, tick s i = Ok (s, out) /\ actuations out = [] /\
              sleeps out = [Sleep 1].
Proof.
  intros Er Est Ev Hlt. unfold tick. rewrite Er, Est.
  apply Qle_bool_false_iff in Hlt. rewrite Hlt.
  unfold display_info. rewrite Ev. cbn [bind].
  eexists. split; [reflexivity|]. split; reflexivity.
Qed.

(** While the rest period runs and the global [voltage] is bound (a sample
    was taken before the rest), the loop neither samples the sensor nor
    touches the pump: over any number of iterations the run completes, the
    state is unchanged and no pump command is issued, also when the pump
    output is on. *)
Theorem rest_period_holds_everything (ins : list TickIn) (s : State)
    (r v : Q)
    (Hrest : is_resting s = true) (Hstart : rest_start_time s = Some r)
    (Hvolt : voltage s = Some v)
    (Hearly : Forall (fun i => t_loop i - r < REST_DURATION) ins) :
  exists tr, trace s ins = Ok (s, tr) /\ actuations (events tr) = [].
Proof.
  induction Hearly as [|i rest Hi _ IH].
  - exists []. split; reflexivity.
  - destruct (rest_hold_tick s i r v Hrest Hstart Hvolt Hi)
      as (out & Ht & Ha & _).
    destruct IH as (tr & Hr & Hn).
    exists ((i, out) :: tr). split.
    + cbn [trace]. rewrite Ht. cbn [bind]. rewrite Hr. reflexivity.
    + rewrite events_cons, actuations_app, Ha, Hn. reflexivity.
Qed.

Lemma rest_period_holds_everything_witness :
  exists tr,
    trace (resting_state 100) [sample 120 low_raw; sample 159 high_raw]
    = Ok (resting_state 100, tr) /\ actuations (events tr) = [].
Proof.
  apply (rest_period_holds_everything _ (resting_state 100) 100 2.5);
    try reflexivity.
  repeat constructor; vm_compute; reflexivity.
Defined.

(** Once REST_DURATION seconds have passed since [rest_start_time], the
    iteration announces the end of the rest, clears [is_resting] and goes on
    to sample the sensor and control the pump in the same iteration. *)
Theorem rest_period_ends (s : State) (i : TickIn) (r : Q)
    (Hresting : is_resting s = true) (Hsince : rest_start_time s = Some r)
    (Hlate : REST_DURATION <= t_loop i - r) :
  exists s' out,
    poll (set_is_resting false s) i = Ok (s', out) /\
    tick s i
    = Ok (s', Print "Rest period over. Resuming normal operation." :: out) /\
    is_resting s' = false /\
    voltage s' = Some (read_voltage (adc_raw i)) /\
    sleeps out = [Sleep 0.1].
Proof.
  destruct (poll_total (set_is_resting false s) i) as (s' & out & Hp).
  exists s', out. split; [exact Hp|].
  assert (Ht : tick s i
               = Ok (s', Print "Rest period over. Resuming normal operation."
                         :: out)).
  { unfold tick. rewrite Hresting, Hsince.
    apply Qle_bool_iff in Hlate. rewrite Hlate, Hp. reflexivity. }
  split; [exact Ht|].
  assert (Hs : is_resting s' = false /\
               voltage s' = Some (read_voltage (adc_raw i))).
  { pose proof (poll_cases _ _ _ _ Hp) as [Es' _].
    pose proof (control_cases (set_voltage (read_voltage (adc_raw i))
                                 (set_is_resting false s)) i
                  (read_voltage (adc_raw i))) as C.
    rewrite <- Es' in C. inversion C; subst; simpl; auto. }
  split; [tauto|]. split; [tauto|].
  revert Hp. unfold poll.
  destruct (estimate _ i) as [a l].
  pose proof (control_cases (set_voltage (read_voltage (adc_raw i))
                               (set_is_resting false s)) i
                (read_voltage (adc_raw i))) as C.
  destruct (control _ i _) as [s2 ctl] eqn:Ec.
  destruct (display_info s2 (t_disp i) a l) as [d|] eqn:Ed; [|discriminate].
  cbn [bind]. intro E. injection E as _ <-.
  assert (Hd : sleeps d = []).
  { revert Ed. unfold display_info. destruct (voltage s2); [|discriminate].
    intro E. injection E as <-. reflexivity. }
  assert (Hc : sleeps ctl = []).
  { revert Ec. unfold control.
    repeat match goal with
           | |- context [if ?b then _ else _] => destruct b
           | |- context [match ?o with Some _ => _ | None => _ end] =>
             destruct o
           end; intro E; injection E as _ <-; reflexivity. }
  unfold sleeps in *. cbn [filter is_sleep].
  rewrite !filter_app, Hc, Hd. reflexivity.
Qed.

Lemma rest_period_ends_witness :
  exists s' out,
    poll (set_is_resting false (resting_state 100)) (sample 160 high_raw)
    = Ok (s', out) /\
    tick (resting_state 100) (sample 160 high_raw)
    = Ok (s', Print "Rest period over. Resuming normal operation." :: out) /\
    is_resting s' = false /\
    voltage s' = Some (read_voltage (adc_raw (sample 160 high_raw))) /\
    sleeps out = [Sleep 0.1].
Proof.
  apply (rest_period_ends (resting_state 100) (sample 160 high_raw) 100);
    vm_compute; try reflexivity; discriminate.
Defined.

(** ** What no iteration changes *)

Lemma frame_tick s i s' out :
  tick s i = Ok (s', out) ->
  rest_start_time s' = rest_start_time s /\ start_time s' = start_time s /\
  (is_resting s = false -> is_resting s' = false).
Proof.
  intro H. tick_outcomes H; simpl; auto.
Qed.

(** Over any run [start_time] and [rest_start_time] keep their values (the
    end of a rest period does not clear [rest_start_time]), and
    [is_resting], once False, stays False. *)
Theorem run_keeps_start_and_rest_times (ins : list TickIn) :
  forall (s s' : State) (tr : list (TickIn * list event)),
    trace s ins = Ok (s', tr) ->
    rest_start_time s' = rest_start_time s /\
    start_time s' = start_time s /\
    (is_resting s = false -> is_resting s' = false).
Proof.
  induction ins as [|i rest IH]; intros s s' tr H.
  - injection H as <- <-. auto.
  - apply trace_cons in H. destruct H as (s1 & out & tr' & Ht & Hr & ->).
    destruct (frame_tick _ _ _ _ Ht) as (A1 & B1 & C1).
    destruct (IH _ _ _ Hr) as (A2 & B2 & C2).
    repeat split; try congruence. auto.
Qed.

(** ** Volume and active time move together *)

Lemma volume_matches_time_tick s i s' out :
  volume_matches_time s -> tick s i = Ok (s', out) -> volume_matches_time s'.
Proof.
  unfold volume_matches_time. intros Hm H.
  tick_outcomes H; simpl; try exact Hm.
  rewrite Hm, !div60. ring.
Qed.

(** In exact arithmetic (the floats of lines 121 and 143-144 taken without
    rounding), in every state reachable from startup the committed volume is
    the committed active time at the pump rate, and so are the two real-time
    estimates handed to the display. *)
Theorem volume_is_rate_times_active_time (s : State) (R : reachable s) :
  litres_pumped s == PUMP_RATE_LITRES_PER_MIN * (pump_active_time s / 60) /\
  forall i, snd (estimate s i)
            == PUMP_RATE_LITRES_PER_MIN * (fst (estimate s i) / 60).
Proof.
  assert (Hm : volume_matches_time s).
  { induction R as [t0 | s i s' out _ IH H].
    - vm_compute. reflexivity.
    - exact (volume_matches_time_tick _ _ _ _ IH H). }
  split; [exact Hm|]. intro i. unfold estimate.
  destruct (pump_control s); [|exact Hm].
  destruct (pump_start_time s) as [p|]; [|exact Hm].
  cbn [fst snd]. unfold volume_matches_time in Hm.
  rewrite Hm, !div60. ring.
Qed.

Lemma volume_is_rate_times_active_time_witness :
  litres_pumped stopped_at_100
  == PUMP_RATE_LITRES_PER_MIN * (pump_active_time stopped_at_100 / 60).
Proof.
  refine (proj1 (volume_is_rate_times_active_time stopped_at_100 _)).
  exact (reach_tick _ _ _ _ running_since_80_reachable stopped_at_100_tick).
Defined.

(** ** Active time accounting *)

Lemma active_time_trace ins : forall s s' tr,
  consistent s -> trace s ins = Ok (s', tr) ->
  pump_active_time s' ==
  pump_active_time s + total (cycle_durations (pump_start_time s) tr).
Proof.
  induction ins as [|i rest IH]; intros s s' tr Hc H.
  - injection H as <- <-. simpl. lra.
  - apply trace_cons in H. destruct H as (s1 & out & tr' & Ht & Hr & ->).
    pose proof (consistent_tick _ _ _ _ Hc Ht) as Hc1.
    rewrite (IH _ _ _ Hc1 Hr), cycle_durations_cons.
    tick_outcomes Ht; simpl; try reflexivity.
    destruct Hstop as (_ & _ & Es & _). simpl in Es. rewrite Es.
    simpl. lra.
Qed.

(** After a run from startup [pump_active_time] is the sum of the run
    lengths of the completed cycles; the run in progress is not in it. *)
Theorem active_time_accounting (t0 : Q) (ins : list TickIn) (s' : State)
    (tr : list (TickIn * list event))
    (H : trace (init t0) ins = Ok (s', tr)) :
  pump_active_time s' == total (cycle_durations None tr).
Proof.
  rewrite (active_time_trace _ _ _ _ (consistent_init t0) H). simpl. lra.
Qed.

Lemma active_time_accounting_witness :
  pump_active_time stopped_at_100
  == total (cycle_durations None first_cycle_trace).
Proof.
  exact (active_time_accounting 1 first_cycle stopped_at_100
           first_cycle_trace first_cycle_run).
Defined.

(** ** Guard times along a run *)

Lemma min_cycle_trace ins : forall s s' tr,
  consistent s -> Forall stop_after_loop ins -> trace s ins = Ok (s', tr) ->
  Forall (fun d => MIN_RUN_TIME <= d) (cycle_durations (pump_start_time s) tr).
Proof.
  induction ins as [|i rest IH]; intros s s' tr Hc Hord H.
  - injection H as <- <-. constructor.
  - apply trace_cons in H. destruct H as (s1 & out & tr' & Ht & Hr & ->).
    inversion Hord as [|? ? Hi Hrest']; subst.
    pose proof (consistent_tick _ _ _ _ Hc Ht) as Hc1.
    pose proof (IH _ _ _ Hc1 Hrest' Hr) as IH1.
    rewrite cycle_durations_cons.
    tick_outcomes Ht; simpl; simpl in IH1; try exact IH1.
    destruct Hstop as (_ & _ & Es & Hm). simpl in Es. rewrite Es.
    constructor; [|exact IH1].
    unfold stop_after_loop in Hi. unfold MIN_RUN_TIME in *. lra.
Qed.

(** In a run from startup whose clock does not run backwards between line
    98 and line 142, every completed cycle lasted at least MIN_RUN_TIME
    seconds. *)
Theorem completed_cycles_last_min_run_time (t0 : Q) (ins : list TickIn)
    (s' : State) (tr : list (TickIn * list event))
    (Hclock : Forall stop_after_loop ins)
    (H : trace (init t0) ins = Ok (s', tr)) :
  Forall (fun d => MIN_RUN_TIME <= d) (cycle_durations None tr).
Proof.
  exact (min_cycle_trace _ _ _ _ (consistent_init t0) Hclock H).
Qed.

Lemma completed_cycles_last_min_run_time_witness :
  Forall (fun d => MIN_RUN_TIME <= d) (cycle_durations None first_cycle_trace).
Proof.
  apply (completed_cycles_last_min_run_time 1 first_cycle stopped_at_100).
  - repeat constructor; vm_compute; discriminate.
  - exact first_cycle_run.
Defined.

Lemma start_gaps_cons stopped i out tr :
  start_gaps stopped ((i, out) :: tr) =
  if existsb is_on (actuations out) then
    match stopped with
    | Some l => (t_loop i - l) :: start_gaps stopped tr
    | None => start_gaps stopped tr
    end
  else if existsb is_off (actuations out)
       then start_gaps (Some (t_stop i)) tr
       else start_gaps stopped tr.
Proof.
  cbn [start_gaps].
  now rewrite <- existsb_on_actuations, <- existsb_off_actuations.
Qed.

(** In every run, from any state, each ON command comes at least
    PAUSE_BETWEEN_RUNS seconds (line 98 reading minus line 146 reading)
    after the latest stop. *)
Theorem starts_wait_for_pause (ins : list TickIn) :
  forall (s s' : State) (tr : list (TickIn * list event)),
    trace s ins = Ok (s', tr) ->
    Forall (fun g => PAUSE_BETWEEN_RUNS <= g)
           (start_gaps (last_pump_stop_time s) tr).
Proof.
  induction ins as [|i rest IH]; intros s s' tr H.
  - injection H as <- <-. constructor.
  - apply trace_cons in H. destruct H as (s1 & out & tr' & Ht & Hr & ->).
    pose proof (IH _ _ _ Hr) as IH1.
    rewrite start_gaps_cons.
    tick_outcomes Ht; simpl; simpl in IH1; try exact IH1.
    destruct Hstart as (_ & _ & Hg & _).
    apply pause_elapsed_iff in Hg. simpl in Hg.
    destruct (last_pump_stop_time s) as [l|]; [|exact IH1].
    constructor; [|exact IH1].
    destruct Hg as [Hg|(l' & E & Hg)]; [discriminate|].
    injection E as <-. exact Hg.
Qed.

Lemma starts_wait_for_pause_witness :
  Forall (fun g => PAUSE_BETWEEN_RUNS <= g)
         (start_gaps (last_pump_stop_time stopped_at_100) second_start_trace).
Proof.
  exact (starts_wait_for_pause second_start stopped_at_100 started_at_111
           second_start_trace second_start_run).
Defined.

(** ** Order and number of the pump commands *)

Lemma alternating_actuations on out :
  alternating on out = alternating on (actuations out).
Proof.
  unfold actuations. revert on.
  induction out as [|e out IH]; intro on; [reflexivity|].
  destruct e; simpl; rewrite ?IH; reflexivity.
Qed.

(** In every run, from any state, the pump commands alternate: an ON command
    is issued only with the pump output off, an OFF command only with it on,
    so no command is ever repeated. *)
Theorem pump_commands_alternate (ins : list TickIn) :
  forall (s s' : State) (tr : list (TickIn * list event)),
    trace s ins = Ok (s', tr) ->
    alternating (pump_control s) (events tr) = true.
Proof.
  induction ins as [|i rest IH]; intros s s' tr H.
  - injection H as <- <-. reflexivity.
  - apply trace_cons in H. destruct H as (s1 & out & tr' & Ht & Hr & ->).
    pose proof (IH _ _ _ Hr) as IH1.
    rewrite alternating_actuations in IH1.
    rewrite events_cons, alternating_actuations, actuations_app.
    tick_outcomes Ht; simpl; simpl in IH1.
    + exact IH1.
    + destruct Hstart as (_ & _ & _ & Hp). simpl in Hp. rewrite Hp.
      exact IH1.
    + destruct Hstop as (_ & Hp & _). simpl in Hp. rewrite Hp. exact IH1.
    + exact IH1.
Qed.

Lemma pump_commands_alternate_witness :
  alternating (pump_control (init 1))
    (events (output_of (trace (init 1) two_cycles))) = true.
Proof.
  apply (pump_commands_alternate two_cycles (init 1)
           (state_of (trace (init 1) two_cycles) (init 1))).
  vm_compute. reflexivity.
Defined.

Lemma cycles_trace ins : forall s s' tr,
  consistent s -> trace s ins = Ok (s', tr) ->
  (pump_cycles s' + (if pump_control s then 1 else 0)
   = pump_cycles s
     + Z.of_nat (List.length (cycle_durations (pump_start_time s) tr))
     + (if pump_control s' then 1 else 0))%Z.
Proof.
  induction ins as [|i rest IH]; intros s s' tr Hc H.
  - injection H as <- <-. simpl. lia.
  - apply trace_cons in H. destruct H as (s1 & out & tr' & Ht & Hr & ->).
    pose proof (consistent_tick _ _ _ _ Hc Ht) as Hc1.
    pose proof (IH _ _ _ Hc1 Hr) as IH1.
    rewrite cycle_durations_cons.
    tick_outcomes Ht; simpl; simpl in IH1; try exact IH1.
    + destruct Hstart as (_ & _ & _ & Hp). simpl in Hp. rewrite Hp. lia.
    + destruct Hstop as (_ & Hp & Es & _). simpl in Hp, Es.
      rewrite Hp, Es. cbn [List.length]. lia.
Qed.

(** After a run from startup [pump_cycles] is the number of completed
    cycles, plus one while the pump is running. *)
Theorem cycles_are_completed_plus_running (t0 : Q) (ins : list TickIn)
    (s' : State) (tr : list (TickIn * list event))
    (H : trace (init t0) ins = Ok (s', tr)) :
  pump_cycles s'
  = (Z.of_nat (List.length (cycle_durations None tr))
     + (if pump_control s' then 1 else 0))%Z.
Proof.
  pose proof (cycles_trace _ _ _ _ (consistent_init t0) H) as E.
  simpl in E. lia.
Qed.

Lemma cycles_are_completed_plus_running_witness :
  pump_cycles started_at_111
  = (Z.of_nat (List.length
                 (cycle_durations None (first_cycle_trace ++ second_start_trace)))
     + (if pump_control started_at_111 then 1 else 0))%Z.
Proof.
  apply (cycles_are_completed_plus_running 1 (first_cycle ++ second_start)).
  vm_compute. reflexivity.
Defined.

(** ** Voltage decides the direction *)

Lemma low_sample_tick s i s' out :
  read_voltage (adc_raw i) < LOW_VOLTAGE -> tick s i = Ok (s', out) ->
  ~ In PumpOff out /\ (pump_control s = true -> pump_control s' = true).
Proof.
  intros Hv H. split.
  - intro Hoff. destruct (stop_commits _ _ _ _ H Hoff) as (Hge & _).
    exact (Qlt_not_le _ _ Hv Hge).
  - intro Hp. tick_outcomes H; simpl; auto.
    destruct Hstop as ([Hge|Hr] & _); simpl in *;
      [exfalso; exact (Qlt_not_le _ _ Hv Hge) | discriminate].
Qed.

(** As long as every sample is below 2.1, no OFF command is issued and a
    pump that is on stays on, however long the run: MAX_PUMP_DURATION is
    never consulted. *)
Theorem low_voltage_never_stops (ins : list TickIn) :
  forall (s s' : State) (tr : list (TickIn * list event)),
    Forall (fun i => read_voltage (adc_raw i) < LOW_VOLTAGE) ins ->
    trace s ins = Ok (s', tr) ->
    ~ In PumpOff (events tr) /\
    (pump_control s = true -> pump_control s' = true).
Proof.
  induction ins as [|i rest IH]; intros s s' tr Hlow H.
  - injection H as <- <-. simpl. tauto.
  - apply trace_cons in H. destruct H as (s1 & out & tr' & Ht & Hr & ->).
    inversion Hlow as [|? ? Hi Hrest']; subst.
    destruct (low_sample_tick _ _ _ _ Hi Ht) as (N1 & P1).
    destruct (IH _ _ _ Hrest' Hr) as (N2 & P2).
    rewrite events_cons, in_app_iff. tauto.
Qed.

Lemma low_voltage_never_stops_witness :
  ~ In PumpOff
      (events (output_of (trace running_since_80
                            [sample 90 low_raw; sample 5000 low_raw]))) /\
  (pump_control running_since_80 = true ->
   pump_control (state_of (trace running_since_80
                             [sample 90 low_raw; sample 5000 low_raw])
                          (init 1)) = true).
Proof.
  apply (low_voltage_never_stops [sample 90 low_raw; sample 5000 low_raw]
           running_since_80).
  - repeat constructor; vm_compute; reflexivity.
  - vm_compute. reflexivity.
Defined.

Lemma high_sample_tick s i s' out :
  LOW_VOLTAGE <= read_voltage (adc_raw i) -> tick s i = Ok (s', out) ->
  ~ In PumpOn out /\ (pump_control s = false -> pump_control s' = false).
Proof.
  intros Hv H. rewrite in_actuations_on.
  tick_outcomes H; simpl.
  - tauto.
  - destruct Hstart as (Hlt & _). exfalso. exact (Qlt_not_le _ _ Hlt Hv).
  - split; [intros [X|[]]; discriminate X | reflexivity].
  - tauto.
Qed.

(** As long as every sample is at least 2.1, no ON command is issued and a
    pump that is off stays off. *)
Theorem high_voltage_never_starts (ins : list TickIn) :
  forall (s s' : State) (tr : list (TickIn * list event)),
    Forall (fun i => LOW_VOLTAGE <= read_voltage (adc_raw i)) ins ->
    trace s ins = Ok (s', tr) ->
    ~ In PumpOn (events tr) /\
    (pump_control s = false -> pump_control s' = false).
Proof.
  induction ins as [|i rest IH]; intros s s' tr Hhigh H.
  - injection H as <- <-. simpl. tauto.
  - apply trace_cons in H. destruct H as (s1 & out & tr' & Ht & Hr & ->).
    inversion Hhigh as [|? ? Hi Hrest']; subst.
    destruct (high_sample_tick _ _ _ _ Hi Ht) as (N1 & P1).
    destruct (IH _ _ _ Hrest' Hr) as (N2 & P2).
    rewrite events_cons, in_app_iff. tauto.
Qed.

Lemma high_voltage_never_starts_witness :
  ~ In PumpOn
      (events (output_of (trace (init 1)
                            [sample 90 high_raw; sample 5000 high_raw]))) /\
  (pump_control (init 1) = false ->
   pump_control (state_of (trace (init 1)
                             [sample 90 high_raw; sample 5000 high_raw])
                          (init 1)) = false).
Proof.
  apply (high_voltage_never_starts [sample 90 high_raw; sample 5000 high_raw]
           (init 1)).
  - repeat constructor; vm_compute; discriminate.
  - vm_compute. reflexivity.
Defined.

(** ** Display and sleep of every iteration *)

Lemma oled_layout_app a b : oled_layout (a ++ b) = oled_layout a ++ oled_layout b.
Proof. apply flat_map_app. Qed.

Lemma control_quiet s i v :
  oled_layout (snd (control s i v)) = [] /\ sleeps (snd (control s i v)) = [].
Proof.
  unfold control.
  repeat match goal with
         | |- context [if ?b then _ else _] => destruct b
         | |- context [match ?o with Some _ => _ | None => _ end] =>
           destruct o
         end; split; reflexivity.
Qed.

Lemma display_info_layout s now a l d :
  display_info s now a l = Ok d ->
  oled_layout d
  = full_redraw /\
  sleeps d = [].
Proof.
  unfold display_info. destruct (voltage s); [|discriminate].
  intro H. injection H as <-. split; reflexivity.
Qed.

Lemma poll_layout s i s' out :
  poll s i = Ok (s', out) ->
  oled_layout out
  = full_redraw /\
  sleeps out = [Sleep 0.1] /\
  exists pre, out = pre ++ [Sleep 0.1].
Proof.
  unfold poll. set (v := read_voltage (adc_raw i)).
  destruct (estimate (set_voltage v s) i) as [a l].
  pose proof (control_quiet (set_voltage v s) i v) as [Q1 Q2].
  destruct (control (set_voltage v s) i v) as [s2 ctl].
  destruct (display_info s2 (t_disp i) a l) as [d|] eqn:Ed; [|discriminate].
  cbn [bind]. intro H. injection H as <- <-. cbn [snd] in Q1, Q2.
  destruct (display_info_layout _ _ _ _ _ Ed) as [D1 D2].
  split; [|split].
  - cbn [oled_layout flat_map app]. fold (oled_layout (ctl ++ d ++ [Sleep 0.1])).
    rewrite !oled_layout_app, Q1, D1. reflexivity.
  - unfold sleeps in *. cbn [filter is_sleep].
    rewrite !filter_app, Q2, D2. reflexivity.
  - eexists (_ :: _ :: ctl ++ d). cbn [app]. now rewrite <- app_assoc.
Qed.

(** The display calls of every completed iteration are, in this order and
    no others: [fill(0)], six [text] rows at x=0 and y=0,11,22,33,44,55,
    [show].  The iteration ends with its single sleep: one second when it
    sat out the rest period, a tenth of a second otherwise. *)
Theorem iteration_redraws_and_sleeps (s : State) (i : TickIn) (s' : State)
    (out : list event) (H : tick s i = Ok (s', out)) :
  oled_layout out
  = full_redraw /\
  ((is_resting s = true /\ s' = s /\
    sleeps out = [Sleep 1] /\ exists pre, out = pre ++ [Sleep 1]) \/
   (is_resting s' = false /\
    sleeps out = [Sleep 0.1] /\ exists pre, out = pre ++ [Sleep 0.1])).
Proof.
  pose proof (frame_tick _ _ _ _ H) as (_ & _ & Hkeep).
  revert H. unfold tick. destruct (is_resting s) eqn:Er.
  - destruct (rest_start_time s) as [r|]; [|discriminate].
    destruct (Qle_bool REST_DURATION (t_loop i - r)).
    + destruct (poll (set_is_resting false s) i) as [[s1 o1]|] eqn:Ep;
        [|discriminate].
      cbn [bind]. intro H. injection H as <- <-.
      destruct (poll_layout _ _ _ _ Ep) as (L & S & pre & E).
      split; [exact L|]. right.
      pose proof (poll_cases _ _ _ _ Ep) as [Es _].
      pose proof (control_cases
                    (set_voltage (read_voltage (adc_raw i))
                       (set_is_resting false s)) i
                    (read_voltage (adc_raw i))) as C.
      rewrite <- Es in C.
      split; [inversion C; subst; reflexivity|].
      split; [exact S|]. exists (Print
        "Rest period over. Resuming normal operation." :: pre).
      rewrite E. reflexivity.
    + destruct (display_info s (t_disp i) (pump_active_time s)
                  (litres_pumped s)) as [d|] eqn:Ed; [|discriminate].
      cbn [bind]. intro H. injection H as <- <-.
      destruct (display_info_layout _ _ _ _ _ Ed) as [D1 D2].
      split.
      * cbn [oled_layout flat_map app]. fold (oled_layout (d ++ [Sleep 1])).
        rewrite oled_layout_app, D1. reflexivity.
      * left. repeat split.
        -- unfold sleeps in *. cbn [filter is_sleep].
           rewrite filter_app, D2. reflexivity.
        -- exists (Print "Resting..." :: d). reflexivity.
  - intro H. destruct (poll_layout _ _ _ _ H) as (L & S & E).
    split; [exact L|]. right. auto.
Qed.

Lemma iteration_redraws_and_sleeps_witness :
  oled_layout out_hold_85
  = full_redraw /\
  ((is_resting running_since_80 = true /\ held_at_85 = running_since_80 /\
    sleeps out_hold_85 = [Sleep 1] /\
    exists pre, out_hold_85 = pre ++ [Sleep 1]) \/
   (is_resting held_at_85 = false /\
    sleeps out_hold_85 = [Sleep 0.1] /\
    exists pre, out_hold_85 = pre ++ [Sleep 0.1])).
Proof.
  exact (iteration_redraws_and_sleeps running_since_80 (sample 85 high_raw)
           held_at_85 out_hold_85 held_at_85_tick).
Defined.

Lemma running_since_80_reachable_at : reachable_at running_since_80 80.
Proof.
  apply (reach_at_tick (init 1) 1 (sample 80 low_raw) _ out_start_80).
  - apply reach_at_init.
  - vm_compute. discriminate.
  - repeat split; vm_compute; discriminate.
  - exact running_since_80_tick.
Qed.

Lemma displayed_duty_within_bounds_witness :
  exists duty,
    In (OledText (" Duty: " ++ (Fmt.fixed 2 duty ++ " %")) 0 22) out_hold_85 /\
    0 <= duty /\ duty <= 100.
Proof.
  apply (displayed_duty_within_bounds running_since_80 80
           (sample 85 high_raw) held_at_85).
  - exact running_since_80_reachable_at.
  - intro E. vm_compute in E. discriminate E.
  - vm_compute. discriminate.
  - repeat split; vm_compute; discriminate.
  - exact held_at_85_tick.
Defined.

(** ** Active time within the process lifetime *)

(** Along a run from startup under a clock that never runs backwards, the
    committed active time is never negative and never more than the time
    since startup. *)
Theorem active_time_within_lifetime (s : State) (last : Q)
    (R : reachable_at s last) :
  0 <= pump_active_time s /\ pump_active_time s <= last - start_time s.
Proof.
  destruct (reachable_at_timed s last R) as [_ (Hs & Ha & Hp)].
  split; [exact Ha|].
  destruct (pump_start_time s) as [p|]; lra.
Qed.

Lemma active_time_within_lifetime_witness :
  0 <= pump_active_time running_since_80 /\
  pump_active_time running_since_80 <= 80 - start_time running_since_80.
Proof.
  exact (active_time_within_lifetime running_since_80 80
           running_since_80_reachable_at).
Defined.

Lemma cycles_count_starts_trace_witness :
  pump_cycles started_at_111
  = (pump_cycles stopped_at_100
     + Z.of_nat (count_on (events second_start_trace)))%Z.
Proof.
  exact (cycles_count_starts_trace second_start stopped_at_100 started_at_111
           second_start_trace second_start_run).
Defined.

(** ** Whole hours and whole minutes *)

Lemma format_hours_whole (n : Z) :
  (0 <= n)%Z ->
  format_hours (3600 * inject_Z n)
  = (NilZero.string_of_uint (N.to_uint (Z.to_N n)) ++ ".000")%string.
Proof.
  intro Hn. unfold format_hours, Fmt.fixed.
  assert (E : Fmt.round_half_even
                (3600 * inject_Z n / 3600 * inject_Z (Fmt.pow10 3))
              = (n * 1000)%Z).
  { unfold Fmt.round_half_even.
    change (Qnum (3600 * inject_Z n / 3600 * inject_Z (Fmt.pow10 3)))
      with (3600 * n * 1 * 1000)%Z.
    change (Z.pos (Qden (3600 * inject_Z n / 3600 * inject_Z (Fmt.pow10 3))))
      with 3600%Z.
    replace (3600 * n * 1 * 1000)%Z with (n * 1000 * 3600)%Z by lia.
    rewrite Z.div_mul by lia. rewrite Z.mod_mul by lia. reflexivity. }
  rewrite E.
  change (Qnum (3600 * inject_Z n / 3600)) with (3600 * n * 1)%Z.
  replace (3600 * n * 1 <? 0)%Z with false by (symmetry; apply Z.ltb_ge; lia).
  change (Fmt.pow10 3) with 1000%Z.
  rewrite Z.abs_eq by lia.
  rewrite Z.div_mul by lia. rewrite Z.mod_mul by lia. reflexivity.
Qed.

Lemma format_minutes_whole (n : Z) :
  (0 <= n)%Z ->
  format_minutes (60 * inject_Z n)
  = (NilZero.string_of_uint (N.to_uint (Z.to_N n)) ++ ".00")%string.
Proof.
  intro Hn. unfold format_minutes, Fmt.fixed.
  assert (E : Fmt.round_half_even
                (60 * inject_Z n / 60 * inject_Z (Fmt.pow10 2))
              = (n * 100)%Z).
  { unfold Fmt.round_half_even.
    change (Qnum (60 * inject_Z n / 60 * inject_Z (Fmt.pow10 2)))
      with (60 * n * 1 * 100)%Z.
    change (Z.pos (Qden (60 * inject_Z n / 60 * inject_Z (Fmt.pow10 2))))
      with 60%Z.
    replace (60 * n * 1 * 100)%Z with (n * 100 * 60)%Z by lia.
    rewrite Z.div_mul by lia. rewrite Z.mod_mul by lia. reflexivity. }
  rewrite E.
  change (Qnum (60 * inject_Z n / 60)) with (60 * n * 1)%Z.
  replace (60 * n * 1 <? 0)%Z with false by (symmetry; apply Z.ltb_ge; lia).
  change (Fmt.pow10 2) with 100%Z.
  rewrite Z.abs_eq by lia.
  rewrite Z.div_mul by lia. rewrite Z.mod_mul by lia. reflexivity.
Qed.

(** For a whole number [n] small enough for the seconds to be exact in a
    float of either precision (3600 n below 2^24), [n] hours are shown as
    n.000 by [format_hours] and [n] minutes as n.00 by [format_minutes]. *)
Theorem whole_hours_and_minutes (n : Z) (Hn : (0 <= n)%Z)
    (Hexact : (3600 * n < 2 ^ 24)%Z) :
  format_hours (3600 * inject_Z n)
  = (Fmt.int n ++ ".000")%string /\
  format_minutes (60 * inject_Z n)
  = (Fmt.int n ++ ".00")%string.
Proof.
  assert (E : Fmt.int n = NilZero.string_of_uint (N.to_uint (Z.to_N n))).
  { unfold Fmt.int. destruct n as [|p|p]; [reflexivity | reflexivity | lia]. }
  rewrite E. split.
  - exact (format_hours_whole n Hn).
  - exact (format_minutes_whole n Hn).
Qed.

Lemma whole_hours_and_minutes_witness :
  format_hours (3600 * inject_Z 12) = (Fmt.int 12 ++ ".000")%string /\
  format_minutes (60 * inject_Z 12) = (Fmt.int 12 ++ ".00")%string.
Proof.
  apply (whole_hours_and_minutes 12); [lia | vm_compute; reflexivity].
Defined.

Lemma run_keeps_start_and_rest_times_witness :
  rest_start_time
    (state_of (trace (resting_state 100) [sample 160 high_raw]) (init 1))
  = rest_start_time (resting_state 100) /\
  start_time
    (state_of (trace (resting_state 100) [sample 160 high_raw]) (init 1))
  = start_time (resting_state 100) /\
  (is_resting (resting_state 100) = false ->
   is_resting
     (state_of (trace (resting_state 100) [sample 160 high_raw]) (init 1))
   = false).
Proof.
  apply (run_keeps_start_and_rest_times [sample 160 high_raw]
           (resting_state 100) _
           (output_of (trace (resting_state 100) [sample 160 high_raw]))).
  vm_compute. reflexivity.
Defined.

(** ** A clock that steps back during the switch-off *)

(** C4, as stated, fails when the clock steps back inside an iteration:
    with the pump running since 80, line 139 sees 100 - 80 >= 10, line 142
    then reads 50 and commits a run of -30 s, which takes [litres_pumped]
    from 0 to -3.2. *)
Lemma litres_decrease_when_clock_steps_back :
  trace (init 1) [sample 80 low_raw; clock_steps_back]
  = Ok (stepped_back,
        [(sample 80 low_raw, out_start_80);
         (clock_steps_back, out_stepped_back)]) /\
  In PumpOff out_stepped_back /\
  litres_pumped running_since_80 == 0 /\
  litres_pumped stepped_back == -3.2 /\
  ~ litres_pumped running_since_80 <= litres_pumped stepped_back.
Proof.
  split; [vm_compute; reflexivity|].
  split; [vm_compute; do 3 right; left; reflexivity|].
  split; [vm_compute; reflexivity|].
  split; [vm_compute; reflexivity|].
  vm_compute. intro H. apply H. reflexivity.
Qed.
